(** * EMUnion bot backend: a shallow embedding of [bot.py]

    The webhook bridge of [bot.py] is embedded function by function:
    the binding table of [data.db] is a finite map from the text of the
    [qq] column to the remaining columns, every function that touches
    the table, the console client, the status protocol or the chat
    gateway is a computation in a state-and-exception monad, and the
    outside world (what the console client prints, what a status round
    trip yields, whether the gateway call fails) is an oracle that sees
    the history of earlier interactions. *)

From stdpp Require Import gmap strings list fin_maps pretty.
From Stdlib Require Import ZArith Ascii.

Local Open Scope Z_scope.

(** ** Python values *)

(** The values that travel through the handlers: [None], integers,
    strings and, because [mainHander] stores the function
    [query_username] itself in a variable, function objects. *)
Inductive pyval : Type :=
  | PNone
  | PInt (z : Z)
  | PStr (s : string)
  | PFun (name : string).

Global Instance pyval_eq_dec : EqDecision pyval.
Proof. solve_decision. Defined.

(** [bool(v)], the test behind [if qq:] and [not mc]. *)
Definition truthy (v : pyval) : bool :=
  match v with
  | PNone => false
  | PInt z => negb (z =? 0)
  | PStr s => negb (String.eqb s "")
  | PFun _ => true
  end.

(** [a == b] on these values, as used by [qid not in admin]. *)
Definition py_eq (a b : pyval) : bool := bool_decide (a = b).

(** [x in l] for a Python list. *)
Definition py_in (x : pyval) (l : list pyval) : bool := existsb (py_eq x) l.

(** The line feed written as a backslash-n in the source. *)
Definition nl : string := String (Ascii.ascii_of_nat 10) "".

(** ** Strings *)

(** [needle in hay]. *)
Fixpoint contains (needle hay : string) : bool :=
  if String.prefix needle hay then true
  else match hay with
       | EmptyString => false
       | String _ rest => contains needle rest
       end.

(** [s.split(" ")]: cut at every single space; never the empty list. *)
Fixpoint split_space (s : string) : list string :=
  match s with
  | EmptyString => [""]
  | String c rest =>
      if Ascii.eqb c " "%char then "" :: split_space rest
      else match split_space rest with
           | [] => [String c ""]
           | t :: ts => String c t :: ts
           end
  end.

(** [s.isascii()] on the UTF-8 text: no byte has its high bit set. *)
Fixpoint isascii (s : string) : bool :=
  match s with
  | EmptyString => true
  | String (Ascii.Ascii _ _ _ _ _ _ _ b7) rest => negb b7 && isascii rest
  end.

(** [s.replace(c, "")] for a one-character [c]. *)
Fixpoint remove_char (c : Ascii.ascii) (s : string) : string :=
  match s with
  | EmptyString => EmptyString
  | String d rest =>
      if Ascii.eqb c d then remove_char c rest else String d (remove_char c rest)
  end.

(** [sep.join(l)]. *)
Fixpoint join (sep : string) (l : list string) : string :=
  match l with
  | [] => ""
  | [x] => x
  | x :: rest => x +:+ sep +:+ join sep rest
  end.

(** ** Exceptions *)

Inductive exn_class : Type :=
  | ValueError
  | TypeError
  | IndexError
  | OverflowError
  | ServerConnectionError
  | TimeoutError
  | gaierror
  | sqlite3_Error
  | OtherException.

Global Instance exn_class_eq_dec : EqDecision exn_class.
Proof. solve_decision. Defined.

(** An exception object: its class and the text [str(e)] gives.
    [sqlite3_Error] stands for [sqlite3.Error] and its subclasses,
    [OtherException] for any other subclass of [Exception] a library
    call raises (a refused connection, a failed HTTP request). *)
Record exn : Type := Exn { exn_class_of : exn_class; exn_msg : string }.

Inductive outcome (A : Type) : Type :=
  | Ret (a : A)
  | Raise (e : exn).
Arguments Ret {A} a.
Arguments Raise {A} e.

(** ** The binding table *)

(** One row of table [bind] without its primary key [qq]. *)
Record row : Type := Row { mc : option string; is_admin : bool; ban : bool }.

Global Instance row_eq_dec : EqDecision row.
Proof. solve_decision. Defined.

(** The table: primary key [qq] (a TEXT column) to the rest of the row.
    [CREATE TABLE IF NOT EXISTS] leaves an existing table as it is, and
    a missing table is the empty one. *)
Abbreviation table := (gmap string row).

(** What the [sqlite3] module makes of a parameter compared with or
    stored in a TEXT column: [None] is NULL, an integer that fits 64
    bits becomes its decimal text (TEXT affinity), a larger one raises
    [OverflowError], a string is itself, any other object is refused
    with a [sqlite3.Error]. *)
Definition bind_param (v : pyval) : outcome (option string) :=
  match v with
  | PNone => Ret None
  | PInt z =>
      if (- 2 ^ 63 <=? z) && (z <? 2 ^ 63) then Ret (Some (pretty z))
      else Raise (Exn OverflowError "Python int too large to convert to SQLite INTEGER")
  | PStr s => Ret (Some s)
  | PFun _ => Raise (Exn sqlite3_Error "Error binding parameter")
  end.

(** The rows whose [mc] column equals [name]. *)
Definition mc_is (name : string) (kr : string * row) : Prop := mc kr.2 = Some name.

Global Instance mc_is_dec name kr : Decision (mc_is name kr).
Proof. unfold mc_is. solve_decision. Defined.

(** [INSERT INTO bind (qq, mc) VALUES (?, ?) ON CONFLICT(qq) DO UPDATE
    SET mc=excluded.mc]; a NULL [qq] breaks the NOT NULL constraint. *)
Definition sql_upsert (qq mc_ : pyval) (t : table) : outcome table :=
  match bind_param qq with
  | Raise e => Raise e
  | Ret kq =>
      match bind_param mc_ with
      | Raise e => Raise e
      | Ret km =>
          match kq with
          | None => Raise (Exn sqlite3_Error "NOT NULL constraint failed: bind.qq")
          | Some k =>
              match t !! k with
              | Some r => Ret (<[k := Row km (is_admin r) (ban r)]> t)
              | None => Ret (<[k := Row km false false]> t)
              end
          end
      end
  end.

(** [INSERT OR REPLACE INTO bind (qq, is_admin) VALUES (?, TRUE)]: the
    whole row is replaced, [mc] and [ban] take their defaults. *)
Definition sql_replace_admin (qq : pyval) (t : table) : outcome table :=
  match bind_param qq with
  | Raise e => Raise e
  | Ret None => Raise (Exn sqlite3_Error "NOT NULL constraint failed: bind.qq")
  | Ret (Some k) => Ret (<[k := Row None true false]> t)
  end.

(** [DELETE FROM bind WHERE qq = ?], with the cursor's row count. *)
Definition sql_delete_qq (qq : pyval) (t : table) : outcome (table * Z) :=
  match bind_param qq with
  | Raise e => Raise e
  | Ret None => Ret (t, 0)
  | Ret (Some k) =>
      match t !! k with
      | Some _ => Ret (delete k t, 1)
      | None => Ret (t, 0)
      end
  end.

(** [DELETE FROM bind WHERE mc = ?]. *)
Definition sql_delete_mc (mc_ : pyval) (t : table) : outcome (table * Z) :=
  match bind_param mc_ with
  | Raise e => Raise e
  | Ret None => Ret (t, 0)
  | Ret (Some name) =>
      Ret (filter (λ kr, ¬ mc_is name kr) t, Z.of_nat (size (filter (mc_is name) t)))
  end.

Definition set_ban (r : row) : row := Row (mc r) (is_admin r) true.

(** [UPDATE bind SET ban = TRUE WHERE qq = ?]. *)
Definition sql_ban_qq (qq : pyval) (t : table) : outcome (table * Z) :=
  match bind_param qq with
  | Raise e => Raise e
  | Ret None => Ret (t, 0)
  | Ret (Some k) =>
      match t !! k with
      | Some _ => Ret (alter set_ban k t, 1)
      | None => Ret (t, 0)
      end
  end.

(** [UPDATE bind SET ban = TRUE WHERE mc = ?]. *)
Definition sql_ban_mc (mc_ : pyval) (t : table) : outcome (table * Z) :=
  match bind_param mc_ with
  | Raise e => Raise e
  | Ret None => Ret (t, 0)
  | Ret (Some name) =>
      Ret (map_imap (λ k r, Some (if decide (mc_is name (k, r)) then set_ban r else r)) t,
           Z.of_nat (size (filter (mc_is name) t)))
  end.

(** The [ban] values [SELECT ban FROM bind WHERE qq = ?] yields. *)
Definition select_ban_qq (k : option string) (t : table) : list bool :=
  match k with
  | None => []
  | Some k => match t !! k with Some r => [ban r] | None => [] end
  end.

(** The [ban] values [SELECT ban FROM bind WHERE mc = ?] yields. *)
Definition select_ban_mc (name : option string) (t : table) : list bool :=
  match name with
  | None => []
  | Some name => (λ kr : string * row, ban kr.2) <$> map_to_list (filter (mc_is name) t)
  end.

(** [SELECT COUNT( * ) FROM bind WHERE qq = ?]. *)
Definition count_qq (k : option string) (t : table) : Z :=
  match k with
  | None => 0
  | Some k => match t !! k with Some _ => 1 | None => 0 end
  end.

(** [SELECT COUNT( * ) FROM bind WHERE mc = ?]. *)
Definition count_mc (name : option string) (t : table) : Z :=
  match name with
  | None => 0
  | Some name => Z.of_nat (size (filter (mc_is name) t))
  end.

(** ** The outside world *)

(** What one status/query round trip obtains from a server that
    answers; [latency] is [round(status.latency, 2)] kept as the text
    Python prints for that float. *)
Record status : Type := Status {
  st_version : string;
  st_protocol : Z;
  st_players : list string;
  st_online : Z;
  st_max : Z;
  st_description : string;
  st_latency : string }.

Inductive probe_outcome : Type :=
  | ProbeOk (s : status)
  | ProbeRaise (e : exn).

(** Interactions with the outside, in the order they happen. *)
Inductive event : Type :=
  | EvConsole (stdin : string)
  | EvProbe (address : string)
  | EvPost (url : string) (params : list (string * pyval)).

(** The parts of a run the repository does not fix. The three oracles
    see the history so far, so that an answer may differ from call to
    call; [str_isdigit] and [str_repr] are Python's [str.isdigit] and
    [repr] on strings, [fun_addr] the address Python prints for the
    function object [query_username]. *)
Record World : Type := {
  console_output : list event → string → string;
  probe_result : list event → string → probe_outcome;
  post_error : list event → string → list (string * pyval) → option exn;
  str_isdigit : string → bool;
  str_repr : string → string;
  fun_addr : string }.

(** ** State and exceptions *)

Record St : Type := { db : table; trace : list event }.

Definition M (A : Type) : Type := St → outcome A * St.

Definition ret {A} (a : A) : M A := λ s, (Ret a, s).

Definition bind {A B} (m : M A) (k : A → M B) : M B :=
  λ s, match m s with
       | (Ret a, s') => k a s'
       | (Raise e, s') => (Raise e, s')
       end.

Notation "x <- m ;; k" := (bind m (λ x, k))
  (at level 100, m at next level, right associativity).
Notation "m ;;; k" := (bind m (λ _, k))
  (at level 100, right associativity).

Definition raise {A} (e : exn) : M A := λ s, (Raise e, s).
Definition history : M (list event) := λ s, (Ret (trace s), s).
Definition emit (e : event) : M unit :=
  λ s, (Ret tt, {| db := db s; trace := trace s ++ [e] |}).

(** [try: m except C: h], for the exception classes [catches] accepts. *)
Definition try_except {A} (m : M A) (catches : exn_class → bool) (h : exn → M A) : M A :=
  λ s, match m s with
       | (Raise e, s') => if catches (exn_class_of e) then h e s' else (Raise e, s')
       | r => r
       end.

Definition is_sqlite3_Error (c : exn_class) : bool := bool_decide (c = sqlite3_Error).
Definition is_ServerConnectionError (c : exn_class) : bool :=
  bool_decide (c = ServerConnectionError).
Definition is_Exception (c : exn_class) : bool := true.

(** Run one statement on the table: commit its result, or raise and
    leave the table as it was. The errors a statement raises here are
    those of its parameters and constraints; failures of the database
    file itself are outside the model. *)
Definition execute {A} (stmt : table → outcome (table * A)) : M A :=
  λ s, match stmt (db s) with
       | Ret (t, a) => (Ret a, {| db := t; trace := trace s |})
       | Raise e => (Raise e, s)
       end.

(** A query: the table is read, not written. *)
Definition fetch {A} (q : table → outcome A) : M A :=
  λ s, match q (db s) with
       | Ret a => (Ret a, s)
       | Raise e => (Raise e, s)
       end.

(** [l[i]]. *)
Definition getitem (l : list string) (i : nat) : M string :=
  match l !! i with
  | Some x => ret x
  | None => raise (Exn IndexError "list index out of range")
  end.

(** ** Binding store *)

(** [init_database(admin_list)]: every insert of the loop, then one
    commit; an exception leaves nothing committed. *)
Fixpoint insert_admins (admin_list : list pyval) (t : table) : outcome table :=
  match admin_list with
  | [] => Ret t
  | qq :: rest =>
      match sql_replace_admin qq t with
      | Ret t' => insert_admins rest t'
      | Raise e => Raise e
      end
  end.

Definition init_database (admin_list : list pyval) : M unit :=
  execute (λ t, match insert_admins admin_list t with
                | Ret t' => Ret (t', tt)
                | Raise e => Raise e
                end).

Definition add_bind (qq mc_ : pyval) : M bool :=
  try_except
    (execute (λ t, match sql_upsert qq mc_ t with
                   | Ret t' => Ret (t', true)
                   | Raise e => Raise e
                   end))
    is_sqlite3_Error (λ _, ret false).

Definition remove_bind (qq mc_ : pyval) : M bool :=
  if negb (truthy qq) && negb (truthy mc_)
  then raise (Exn ValueError "至少需要提供 qq 或 mc 进行删除")
  else
    try_except
      (rowcount <- execute (λ t,
          if truthy qq then sql_delete_qq qq t
          else if truthy mc_ then sql_delete_mc mc_ t
          else Ret (t, -1)) ;;
       ret (0 <? rowcount))
      is_sqlite3_Error (λ _, ret false).

Definition ban_bind (qq mc_ : pyval) : M bool :=
  try_except
    (rowcount <- execute (λ t,
        match (if truthy qq then sql_ban_qq qq t else Ret (t, -1)) with
        | Raise e => Raise e
        | Ret (t1, n1) => if truthy mc_ then sql_ban_mc mc_ t1 else Ret (t1, n1)
        end) ;;
     ret (0 <? rowcount))
    is_sqlite3_Error (λ _, ret false).

Definition query_count (qq mc_ : pyval) : M Z :=
  try_except
    (if truthy qq then
       fetch (λ t, match bind_param qq with
                   | Ret k => Ret (count_qq k t)
                   | Raise e => Raise e
                   end)
     else if truthy mc_ then
       fetch (λ t, match bind_param mc_ with
                   | Ret name => Ret (count_mc name t)
                   | Raise e => Raise e
                   end)
     else raise (Exn ValueError "至少需要提供 qq 或 mc 进行查询"))
    is_sqlite3_Error (λ _, ret 0).

(** [cursor.fetchone()[0]] of [SELECT mc FROM bind WHERE qq = ?]: the
    [mc] of the row, [None] for a NULL; without a row [fetchone()] is
    [None] and the subscript raises [TypeError]. *)
Definition select_mc (k : option string) (t : table) : outcome pyval :=
  match k ≫= (t !!.) with
  | Some r => Ret (match mc r with Some name => PStr name | None => PNone end)
  | None => Raise (Exn TypeError "'NoneType' object is not subscriptable")
  end.

Definition query_username (qq : pyval) : M pyval :=
  try_except
    (fetch (λ t, match bind_param qq with
                 | Ret k => select_mc k t
                 | Raise e => Raise e
                 end))
    is_sqlite3_Error (λ _, ret (PInt 0)).

Definition force_edit_database (qq mc_ : pyval) : M unit :=
  try_except
    (execute (λ t, match sql_upsert qq mc_ t with
                   | Ret t' => Ret (t', tt)
                   | Raise e => Raise e
                   end))
    is_sqlite3_Error (λ _, ret tt).

Definition query_ban (qq mc_ : pyval) : M bool :=
  if negb (truthy qq) && negb (truthy mc_)
  then raise (Exn ValueError "至少需要提供 qq 或 mc 进行查询")
  else
    try_except
      (results <- fetch (λ t,
          match (if truthy qq then bind_param qq else Ret None) with
          | Raise e => Raise e
          | Ret k =>
              match (if truthy mc_ then bind_param mc_ else Ret None) with
              | Raise e => Raise e
              | Ret name => Ret (select_ban_qq k t ++ select_ban_mc name t)
              end
          end) ;;
       ret (existsb id results))
      is_sqlite3_Error (λ _, ret false).

(** ** Configuration and requests *)

(** One entry of [servers] in [config.yml]. *)
Record server_entry : Type := { srv_name : pyval; srv_host : pyval; srv_port : pyval }.

(** The globals read from [config.yml]: [config.get('qq')], [admin]
    and [server]. *)
Record Config : Type := {
  qq_host : pyval;
  qq_port : pyval;
  admin : list pyval;
  server : list server_entry }.

(** The JSON body of an inbound event. *)
Record request : Type := {
  message_type : string;
  raw_message : string;
  user_id : pyval;
  group_id : pyval }.

(** The dictionary [getMinecraftServerInfo] returns; [motd] is the
    description or [-1], [latency] the printed float or [-1], [msg]
    the text of ["success"] or of the exception. *)
Record server_info : Type := {
  version : string;
  protocol_version : Z;
  players : list string;
  players_online : Z;
  players_max : Z;
  motd : pyval;
  latency : string;
  online : bool;
  error : bool;
  msg : string }.

(** A loop body either falls through to the next iteration or returns
    from the enclosing function. *)
Inductive flow (A : Type) : Type :=
  | Continue
  | Return (a : A).
Arguments Continue {A}.
Arguments Return {A} a.

(** [for i in range(n): body] followed by [after]. *)
Fixpoint for_range {A} (n : nat) (body : M (flow A)) (after : M A) : M A :=
  match n with
  | O => after
  | S n' =>
      r <- body ;;
      match r with
      | Return a => ret a
      | Continue => for_range n' body after
      end
  end.

Section Bot.

Context (w : World) (config : Config).

(** [str(v)], as an f-string formats a value. *)
Definition py_str (v : pyval) : string :=
  match v with
  | PNone => "None"
  | PInt z => pretty z
  | PStr s => s
  | PFun name => "<function " +:+ name +:+ " at 0x" +:+ fun_addr w +:+ ">"
  end.

(** [f"[CQ:at,qq={qid}]"], the mention every reply starts with. *)
Definition at_ (qid : pyval) : string := "[CQ:at,qq=" +:+ py_str qid +:+ "]".

(** ** Server status prober *)

Definition offline_info (err : bool) (m : string) : server_info :=
  {| version := "N/A"; protocol_version := -1; players := [];
     players_online := -1; players_max := -1; motd := PInt (-1);
     latency := "-1"; online := false; error := err; msg := m |}.

Definition online_info (s : status) : server_info :=
  {| version := st_version s; protocol_version := st_protocol s;
     players := st_players s; players_online := st_online s;
     players_max := st_max s; motd := PStr (st_description s);
     latency := st_latency s; online := true; error := false;
     msg := "success" |}.

(** [JavaServer.lookup], [server.status()] and [server.query()]: one
    round trip. *)
Definition round_trip (server_address : string) : M status :=
  h <- history ;;
  emit (EvProbe server_address) ;;;
  match probe_result w h server_address with
  | ProbeOk s => ret s
  | ProbeRaise e => raise e
  end.

Definition is_Timeout_or_gaierror (c : exn_class) : bool :=
  bool_decide (c = TimeoutError) || bool_decide (c = gaierror).

Definition getMinecraftServerInfo (server_address : string) : M server_info :=
  for_range 5
    (try_except
       (s <- round_trip server_address ;; ret (Return (online_info s)))
       is_Timeout_or_gaierror
       (λ e, ret (Return (offline_info true (exn_msg e)))))
    (ret (offline_info false "success")).

(** ** Whitelist controller *)

(** One run of the console client: [stdin] is what is written to the
    process, the result is [output_all]. *)
Definition run_console (stdin : string) : M string :=
  h <- history ;;
  emit (EvConsole stdin) ;;;
  ret (console_output w h stdin).

Definition addWhitelist (username : pyval) : M unit :=
  output_all <- run_console ("!!awr add " +:+ py_str username +:+ nl +:+ "/quit" +:+ nl) ;;
  if negb (contains "已加入白名单" output_all)
  then raise (Exn ServerConnectionError "添加失败，请重试！")
  else ret tt.

Definition removeWhitelist (username : pyval) : M unit :=
  output_all <- run_console ("!!awr remove " +:+ py_str username +:+ nl +:+ "/quit" +:+ nl) ;;
  if negb (contains "已从白名单移除" output_all)
  then raise (Exn ServerConnectionError "移除失败，请重试！")
  else ret tt.

(** ** Handlers *)

(** [str(players).replace("[", "").replace("]", "").replace("'", "")]. *)
Definition players_text (l : list string) : string :=
  remove_char "'" (remove_char "]" (remove_char "["
    ("[" +:+ join ", " (str_repr w <$> l) +:+ "]"))).

(** The [singleMsg] of one server. *)
Definition singleMsg (name : pyval) (st : server_info) : string :=
  if online st then
    nl +:+ "            " +:+ nl +:+
    "服务器名称：" +:+ py_str name +:+ nl +:+
    "延迟：" +:+ latency st +:+ " ms" +:+ nl +:+
    "在线人数：" +:+ pretty (players_online st) +:+ "/" +:+ pretty (players_max st) +:+ nl +:+
    "在线玩家：" +:+
      (match players st with [] => "无" | l => players_text l end) +:+ nl +:+
    "当前状态：在线"
  else if error st then
    nl +:+ "服务器名称：" +:+ py_str name +:+ "            " +:+ nl +:+
    "当前状态：未知（" +:+ msg st +:+ "）"
  else
    nl +:+ "            " +:+ nl +:+
    "服务器名称：" +:+ py_str name +:+ nl +:+
    "当前状态：离线".

(** The loop of [statusHandler] over the remaining servers. *)
Fixpoint status_loop (servers : list server_entry) (acc : string) : M string :=
  match servers with
  | [] => ret acc
  | serv :: rest =>
      st <- getMinecraftServerInfo (py_str (srv_host serv) +:+ ":" +:+ py_str (srv_port serv)) ;;
      status_loop rest (acc +:+ singleMsg (srv_name serv) st)
  end.

Definition statusHandler (qid : pyval) : M string :=
  status_loop (server config) (at_ qid +:+ " ====== 服务器状态一览 ======").

Definition helpHandler (qid : pyval) : string :=
  at_ qid +:+ " ====== EMUnion Bot 帮助信息 ======" +:+ nl +:+
  "● 使用 /status 查看服务器当前状态" +:+ nl +:+
  "● 使用 /bind <name> 来自助添加白名单" +:+ nl +:+
  "● 使用 /unbind 来解除QQ与白名单的绑定".

Definition bind_usage (qid : pyval) : string :=
  at_ qid +:+ " 绑定命令正确用法：/bind <name>".

Definition bind_done (qid : pyval) (name : string) : string :=
  at_ qid +:+ " 已为玩家 " +:+ name +:+ " 添加白名单！".

Definition bind_connection_error (qid : pyval) : string :=
  at_ qid +:+ " 添加失败，无法连接到服务器，请重试！".

(** [bindHandler]: the [except] clause builds the connection-error
    text as an expression statement and falls through to the [return]
    after the [try]. *)
Definition bindHandler (msg_ : string) (qid : pyval) : M string :=
  let split := split_space msg_ in
  if negb (length split =? 2)%nat then ret (bind_usage qid)
  else
    name <- getitem split 1 ;;
    if negb (isascii name)
    then ret (at_ qid +:+ " 请输入正确的游戏名称！" +:+ name +:+ " 不是合法的游戏名！")
    else
      try_except
        (addWhitelist (PStr name) ;;; add_bind qid (PStr name) ;;; ret tt)
        is_ServerConnectionError
        (λ _, let _ := bind_connection_error qid in ret tt) ;;;
      ret (bind_done qid name).

(** ** Gateway client and dispatcher *)

Definition httpx_post (url : string) (params : list (string * pyval)) : M unit :=
  h <- history ;;
  emit (EvPost url params) ;;;
  match post_error w h url params with
  | Some e => raise e
  | None => ret tt
  end.

Definition admin_help (qid : pyval) : string :=
  at_ qid +:+ " ====== 管理员命令列表 ======" +:+ nl +:+
  "● 使用/admin bind <QQ> <name> 来为玩家强制绑定" +:+ nl +:+
  "● 使用/admin unbind <name> 来为玩家强制接触绑定" +:+ nl +:+
  "● 使用/admin ban <name> 来封禁一名玩家".

Definition sender_banned (qid : pyval) : string :=
  at_ qid +:+ " 你的QQ无法绑定账户，请联系管理员！".

Definition name_banned (qid : pyval) : string :=
  at_ qid +:+ " 此用户名无法绑定，请联系管理员！".

Definition already_bound (qid : pyval) : string :=
  at_ qid +:+ " 你已经拥有绑定的游戏ID了！本服务器一人一号，如有其他需要请联系管理员！".

Definition name_taken (qid : pyval) (name : string) : string :=
  at_ qid +:+ " 此用户名 " +:+ name +:+ " 已经被绑定！请联系管理员！".

Definition unbind_done (qid username : pyval) : string :=
  at_ qid +:+ " 已经为你解除 " +:+ py_str username +:+ " 的绑定！".

Definition unbind_failed (qid : pyval) : string :=
  at_ qid +:+ " 解除绑定失败！请联系管理员！".

(** The [/bind] branch of [mainHander]: with a token count other than
    2 the usage text is an expression statement and [msg] keeps the
    raw message. *)
Definition bind_branch (data : request) : M string :=
  let msg_ := raw_message data in
  let qid := user_id data in
  if negb (length (split_space msg_) =? 2)%nat
  then let _ := bind_usage qid in ret msg_
  else
    b <- query_ban qid PNone ;;
    if b then ret (sender_banned qid)
    else
      name <- getitem (split_space msg_) 1 ;;
      b <- query_ban PNone (PStr name) ;;
      if b then ret (name_banned qid)
      else
        n <- query_count qid PNone ;;
        if negb (n =? 0) then ret (already_bound qid)
        else
          name <- getitem (split_space msg_) 1 ;;
          n <- query_count PNone (PStr name) ;;
          if negb (n =? 0)
          then name <- getitem (split_space msg_) 1 ;; ret (name_taken qid name)
          else bindHandler (raw_message data) (user_id data).

(** The [/unbind] branch: [username] is the function [query_username],
    not the result of a call. *)
Definition unbind_branch (data : request) : M string :=
  let qid := user_id data in
  removed <- remove_bind (user_id data) PNone ;;
  if removed then
    let username := PFun "query_username" in
    removeWhitelist username ;;;
    remove_bind PNone username ;;;
    ret (unbind_done qid username)
  else ret (unbind_failed qid).

(** The [/admin] branch; when no [elif] applies [msg] keeps the raw
    message. *)
Definition admin_branch (data : request) : M string :=
  let qid := user_id data in
  let commands := split_space (raw_message data) in
  if negb (py_in qid (admin config))
  then ret (at_ qid +:+ " 你不在bot管理员列表内！")
  else if (length commands =? 1)%nat then ret (admin_help qid)
  else
    c1 <- getitem commands 1 ;;
    if String.eqb c1 "bind" then
      let usage := at_ qid +:+ " 管理员命令/admin bind <QQ> <name>，请正确使用！" in
      if negb (length commands =? 4)%nat then ret usage
      else
        c2 <- getitem commands 2 ;;
        if negb (str_isdigit w c2) then ret usage
        else
          c3 <- getitem commands 3 ;;
          if negb (isascii c3) then ret usage
          else
            c3 <- getitem commands 3 ;;
            addWhitelist (PStr c3) ;;;
            c2 <- getitem commands 2 ;;
            c3 <- getitem commands 3 ;;
            force_edit_database (PStr c2) (PStr c3) ;;;
            c2 <- getitem commands 2 ;;
            c3 <- getitem commands 3 ;;
            ret (at_ qid +:+ " 已经为 " +:+ c2 +:+ " 添加了用户名 " +:+ c3 +:+ " 的绑定！")
    else if String.eqb c1 "unbind" then
      let usage := at_ qid +:+ " 管理员命令/admin unbind <name>，请正确使用！" in
      if negb (length commands =? 3)%nat then ret usage
      else
        c2 <- getitem commands 2 ;;
        if negb (isascii c2) then ret usage
        else
          c2 <- getitem commands 2 ;;
          removeWhitelist (PStr c2) ;;;
          c2 <- getitem commands 2 ;;
          remove_bind PNone (PStr c2) ;;;
          c3 <- getitem commands 3 ;;
          ret (at_ qid +:+ " 已经清除了用户名 " +:+ c3 +:+ " 的绑定！")
    else if String.eqb c1 "ban" then
      let usage := at_ qid +:+ " 管理员命令/admin ban <name>，请正确使用！" in
      if negb (length commands =? 3)%nat then ret usage
      else
        c2 <- getitem commands 2 ;;
        if negb (isascii c2) then ret usage
        else
          c2 <- getitem commands 2 ;;
          removeWhitelist (PStr c2) ;;;
          c2 <- getitem commands 2 ;;
          ban_bind PNone (PStr c2) ;;;
          c3 <- getitem commands 3 ;;
          ret (at_ qid +:+ " 已经封禁了用户名为 " +:+ c3 +:+ " 的玩家！")
    else ret (raw_message data).

(** The command dispatch of [mainHander]: the reply [msg] and the flag
    [enable]. *)
Definition dispatch (data : request) : M (string * bool) :=
  let qid := user_id data in
  if String.eqb (raw_message data) "/status" then
    m <- try_except (statusHandler (user_id data)) is_Exception
           (λ e, ret (at_ qid +:+ " 无法获取服务器信息：" +:+ exn_msg e)) ;;
    ret (m, true)
  else if String.eqb (raw_message data) "/help" then
    ret (helpHandler (user_id data), true)
  else if String.prefix "/bind" (raw_message data) then
    m <- bind_branch data ;; ret (m, true)
  else if String.eqb (raw_message data) "/unbind" then
    m <- unbind_branch data ;; ret (m, true)
  else if String.prefix "/admin" (raw_message data) then
    m <- admin_branch data ;; ret (m, true)
  else ret (raw_message data, false).

Definition mainHander (data : request) : M string :=
  let baseURL := "http://" +:+ py_str (qq_host config) +:+ ":" +:+ py_str (qq_port config) in
  let msgType := message_type data in
  r <- dispatch data ;;
  let '(msg_, enable) := r in
  (if enable then
     if String.eqb msgType "group" then
       httpx_post (baseURL +:+ "/send_msg")
         [("message_type", PStr "group"); ("group_id", group_id data); ("message", PStr msg_)]
     else if String.eqb msgType "private" then
       httpx_post (baseURL +:+ "/send_msg")
         [("message_type", PStr "private"); ("user_id", user_id data); ("message", PStr msg_)]
     else ret tt
   else ret tt) ;;;
  ret "success".

End Bot.

(** ** Observations and sample runs *)

(** The inputs written to the console client, oldest first: the
    whitelist calls of a run. *)
Definition console_calls (tr : list event) : list string :=
  omap (λ e, match e with EvConsole stdin => Some stdin | _ => None end) tr.

(** Some row with [mc = name] carries the ban flag. *)
Definition banned (name : string) (t : table) : Prop :=
  map_Exists (λ _ r, mc r = Some name ∧ ban r = true) t.

(** The values [sqlite3] can store as the key [qq]: 64-bit integers
    and strings. *)
Definition storable (v : pyval) : bool :=
  match bind_param v with
  | Ret (Some _) => true
  | _ => false
  end.

(** The row [WHERE qq = ?] selects for a parameter. *)
Definition row_of (qq : pyval) (t : table) : option row :=
  match bind_param qq with
  | Ret (Some k) => t !! k
  | _ => None
  end.

(** [str.isdigit] on ASCII text. *)
Fixpoint ascii_digits (s : string) : bool :=
  match s with
  | EmptyString => true
  | String c rest =>
      (48 <=? Z.of_N (N_of_ascii c)) && (Z.of_N (N_of_ascii c) <=? 57) && ascii_digits rest
  end.

(** A world in which the console client confirms every command, every
    server times out and the gateway accepts every message. *)
Definition world_ok : World := {|
  console_output := λ _ stdin,
    if String.prefix "!!awr add" stdin then "已加入白名单" else "已从白名单移除";
  probe_result := λ _ _, ProbeRaise (Exn TimeoutError "timed out");
  post_error := λ _ _ _, None;
  str_isdigit := λ s, negb (String.eqb s "") && ascii_digits s;
  str_repr := λ s, "'" +:+ s +:+ "'";
  fun_addr := "7f3a5c1d2e50" |}.

(** A world in which the console client prints nothing and every
    server refuses the connection. *)
Definition world_down : World := {|
  console_output := λ _ _, "";
  probe_result := λ _ _, ProbeRaise (Exn OtherException "[Errno 111] Connection refused");
  post_error := λ _ _ _, None;
  str_isdigit := λ s, negb (String.eqb s "") && ascii_digits s;
  str_repr := λ s, "'" +:+ s +:+ "'";
  fun_addr := "7f3a5c1d2e50" |}.

(** A world in which no route leads to any server: connecting raises
    a plain [OSError], and the console client prints nothing. *)
Definition world_no_route : World := {|
  console_output := λ _ _, "";
  probe_result := λ _ _, ProbeRaise (Exn OtherException "[Errno 113] No route to host");
  post_error := λ _ _ _, None;
  str_isdigit := λ s, negb (String.eqb s "") && ascii_digits s;
  str_repr := λ s, "'" +:+ s +:+ "'";
  fun_addr := "7f3a5c1d2e50" |}.

Definition sample_config : Config := {|
  qq_host := PStr "127.0.0.1";
  qq_port := PInt 5700;
  admin := [PInt 1001];
  server := [ {| srv_name := PStr "survival"; srv_host := PStr "mc.example.org";
                 srv_port := PInt 25565 |};
              {| srv_name := PStr "creative"; srv_host := PStr "mc.example.org";
                 srv_port := PInt 25566 |} ] |}.

(** A private message [text] from sender [q]. *)
Definition private_message (text : string) (q : Z) : request :=
  {| message_type := "private"; raw_message := text; user_id := PInt q; group_id := PNone |}.

(** A store holding [t] before anything has happened. *)
Definition fresh (t : table) : St := {| db := t; trace := [] |}.

(** The state after a sequence of requests; a request that raises
    keeps what it committed. *)
Definition run (w : World) (config : Config) (reqs : list request) (s : St) : St :=
  foldl (λ s r, (mainHander w config r s).2) s reqs.

(** Sender 2002 binds Steve, then admin 1001 bans that username. *)
Definition after_ban : St :=
  run world_ok sample_config
    [private_message "/bind Steve" 2002; private_message "/admin ban Steve" 1001]
    (fresh ∅).

(** ... and then the admin unbinds the username. *)
Definition after_ban_and_unbind : St :=
  run world_ok sample_config [private_message "/admin unbind Steve" 1001] after_ban.

(** The table right after startup with the sample configuration. *)
Definition after_init : St := (init_database (admin sample_config) (fresh ∅)).2.

(** ... and after the admin's own [/unbind]. *)
Definition after_init_and_unbind : St :=
  run world_ok sample_config [private_message "/unbind" 1001] after_init.

(** The text posted to the gateway by the last event, if it is one. *)
Definition last_reply (tr : list event) : option pyval :=
  match last tr with
  | Some (EvPost _ params) => snd <$> last params
  | _ => None
  end.

(** ** Further observations *)

Global Instance exn_eq_dec : EqDecision exn.
Proof. solve_decision. Defined.

Global Instance outcome_eq_dec {A} `{EqDecision A} : EqDecision (outcome A).
Proof. solve_decision. Defined.

(** Some row is bound to [name]. *)
Definition bound (name : string) (t : table) : Prop :=
  map_Exists (λ _ r, mc r = Some name) t.

(** The row an upsert of [name] leaves at a key: the flags of the row
    that was there, or the defaults. *)
Definition upserted (name : string) (old : option row) : row :=
  match old with
  | Some r => Row (Some name) (is_admin r) (ban r)
  | None => Row (Some name) false false
  end.

(** The row a ban of [name] leaves in place of [r]. *)
Definition ban_if_bound (name : string) (r : row) : row :=
  if decide (mc r = Some name) then set_ban r else r.

(** What one request may do to the table: delete rows, upsert the
    username of one key, or set the ban flag of the rows of one name. *)
Inductive table_effect (t : table) : table → Prop :=
  | effect_delete (t' : table) : t' ⊆ t → table_effect t t'
  | effect_upsert (k name : string) :
      table_effect t (<[k := upserted name (t !! k)]> t)
  | effect_ban (name : string) : table_effect t (ban_if_bound name <$> t).

(** No username is bound to two ids. *)
Definition unique_names (t : table) : Prop :=
  ∀ k1 k2 r1 r2 name,
    t !! k1 = Some r1 → t !! k2 = Some r2 →
    mc r1 = Some name → mc r2 = Some name → k1 = k2.

(** A computation that leaves the table as it is. *)
Definition quiet {A} (m : M A) : Prop := ∀ s, db (m s).2 = db s.

(** A computation that can only delete rows. *)
Definition shrinks {A} (m : M A) : Prop := ∀ s, db (m s).2 ⊆ db s.

(** A computation whose whole effect on the table is one of the three
    of [table_effect]. *)
Definition has_effect {A} (m : M A) : Prop :=
  ∀ s, table_effect (db s) (db (m s).2).

(** The address [statusHandler] probes for a configured server. *)
Definition server_address (w : World) (serv : server_entry) : string :=
  py_str w (srv_host serv) +:+ ":" +:+ py_str w (srv_port serv).

(** What [getMinecraftServerInfo] makes of the outcome of a round trip. *)
Definition info_of (o : probe_outcome) : outcome server_info :=
  match o with
  | ProbeOk st => Ret (online_info st)
  | ProbeRaise e =>
      if is_Timeout_or_gaierror (exn_class_of e)
      then Ret (offline_info true (exn_msg e))
      else Raise e
  end.

(** The concatenation of a list of texts. *)
Definition concat_str (l : list string) : string := foldr String.append "" l.

(** [c in s] for a one-character [c]. *)
Fixpoint char_in (c : Ascii.ascii) (s : string) : bool :=
  match s with
  | EmptyString => false
  | String d rest => Ascii.eqb c d || char_in c rest
  end.

(** * Properties *)

(** ** Whitelist calls of a run *)

Lemma console_calls_app (a b : list event) :
  console_calls (a ++ b) = console_calls a ++ console_calls b.
Proof. unfold console_calls. apply omap_app. Qed.

(** ** The lookup of a username *)

(** C8 (code at the failing input): on a table without a row for the
    id, [query_username] raises [TypeError]; the [except sqlite3.Error]
    clause does not catch it, so no not-found value is returned. *)
Theorem query_username_without_row_raises (tr : list event) :
  query_username (PInt 1001) {| db := ∅; trace := tr |}
  = (Raise (Exn TypeError "'NoneType' object is not subscriptable"),
     {| db := ∅; trace := tr |}).
Proof. reflexivity. Qed.

(** With a row, the lookup returns its [mc]. *)
Lemma query_username_with_row (k : string) (r : row) (s : St) :
  db s !! k = Some r →
  query_username (PStr k) s
  = (Ret (match mc r with Some name => PStr name | None => PNone end), s).
Proof.
  intros H. unfold query_username, try_except, fetch, select_mc. simpl.
  rewrite H. reflexivity.
Qed.

(** Without a row for a storable id, the lookup raises [TypeError]. *)
Lemma query_username_missing_row (qq : pyval) (s : St) :
  storable qq = true → row_of qq (db s) = None →
  ∃ e, query_username qq s = (Raise e, s) ∧ exn_class_of e = TypeError.
Proof.
  unfold storable, row_of, query_username, try_except, fetch, select_mc.
  destruct (bind_param qq) as [[k|]|e]; try discriminate.
  intros _ Hrow. simpl. rewrite Hrow. simpl. by eexists.
Qed.

(** ** Token count of [/bind] *)

(** C9 (code at the failing input): a [/bind] message of one token is
    answered with the raw message itself; no whitelist call is made and
    the table is unchanged, but the usage text is never sent. *)
Theorem bind_one_token_echoes_message (w : World) (t : table) :
  dispatch w sample_config (private_message "/bind" 2002) (fresh t)
  = (Ret ("/bind", true), fresh t)
  ∧ mainHander world_ok sample_config (private_message "/bind" 2002) (fresh ∅)
    = (Ret "success",
       {| db := ∅;
          trace := [EvPost "http://127.0.0.1:5700/send_msg"
                      [("message_type", PStr "private"); ("user_id", PInt 2002);
                       ("message", PStr "/bind")]] |}).
Proof. split; reflexivity. Qed.

(** ** Whitelist failure during [/bind] *)

(** C4 (code at the failing input): when the console transcript lacks
    the marker, the binding is not stored, but the reply sent is the
    success text of [bindHandler], not the connection error. *)
Theorem bind_console_failure_reports_success :
  mainHander world_down sample_config (private_message "/bind Steve" 2002) (fresh ∅)
  = (Ret "success",
     {| db := ∅;
        trace := [EvConsole ("!!awr add Steve" +:+ nl +:+ "/quit" +:+ nl);
                  EvPost "http://127.0.0.1:5700/send_msg"
                    [("message_type", PStr "private"); ("user_id", PInt 2002);
                     ("message", PStr "[CQ:at,qq=2002] 已为玩家 Steve 添加白名单！")]] |}).
Proof. vm_compute. reflexivity. Qed.

(** In every world, a failed whitelist call inside [bindHandler] still
    yields the success text. *)
Lemma bindHandler_failure_text (w : World) (qid : pyval) (name cmd : string) (s : St) :
  isascii name = true →
  contains "已加入白名单"
    (console_output w (trace s) ("!!awr add " +:+ name +:+ nl +:+ "/quit" +:+ nl)) = false →
  split_space (cmd +:+ " " +:+ name) = [cmd; name] →
  ∃ s', bindHandler w (cmd +:+ " " +:+ name) qid s = (Ret (bind_done w qid name), s')
        ∧ db s' = db s.
Proof.
  intros Hascii Hout Hsplit. unfold bindHandler. rewrite Hsplit. simpl.
  unfold bind, getitem. simpl. unfold ret at 1. rewrite Hascii. simpl.
  unfold try_except, bind, addWhitelist, run_console, bind, history, emit. simpl.
  rewrite Hout. simpl. eexists. split; reflexivity.
Qed.

(** ** The [/unbind] branch *)

(** C1 (code at the failing input): sender 1001 and sender 2002 are
    both bound to Steve. On [/unbind] from 1001 the row of 1001 is
    deleted first; the whitelist removal is then called with the
    function object [query_username], whose text goes to the console
    and into the reply; the row of 2002 with the same username stays. *)
Theorem unbind_uses_function_object :
  mainHander world_ok sample_config (private_message "/unbind" 1001)
    (fresh (<["1001" := Row (Some "Steve") false false]>
              (<["2002" := Row (Some "Steve") false false]> ∅)))
  = (Ret "success",
     {| db := <["2002" := Row (Some "Steve") false false]> ∅;
        trace :=
          [EvConsole ("!!awr remove <function query_username at 0x7f3a5c1d2e50>"
                      +:+ nl +:+ "/quit" +:+ nl);
           EvPost "http://127.0.0.1:5700/send_msg"
             [("message_type", PStr "private"); ("user_id", PInt 1001);
              ("message",
               PStr "[CQ:at,qq=1001] 已经为你解除 <function query_username at 0x7f3a5c1d2e50> 的绑定！")]] |}).
Proof. vm_compute. reflexivity. Qed.

Lemma remove_bind_trace (qq mc_ : pyval) (s : St) :
  trace (remove_bind qq mc_ s).2 = trace s.
Proof.
  unfold remove_bind.
  destruct (negb (truthy qq) && negb (truthy mc_)); [reflexivity|].
  unfold try_except, bind, execute.
  destruct (if truthy qq then sql_delete_qq qq (db s)
            else if truthy mc_ then sql_delete_mc mc_ (db s) else Ret (db s, -1))
    as [[t n]|e]; simpl; [reflexivity|].
  by destruct (is_sqlite3_Error (exn_class_of e)).
Qed.

(** In every world and state, the only whitelist call [/unbind] can
    make names the function object, never a username of the table. *)
Lemma unbind_branch_whitelist_call (w : World) (data : request) (s : St) :
  console_calls (trace (unbind_branch w data s).2) = console_calls (trace s)
  ∨ console_calls (trace (unbind_branch w data s).2)
    = console_calls (trace s)
      ++ ["!!awr remove " +:+ py_str w (PFun "query_username") +:+ nl +:+ "/quit" +:+ nl].
Proof.
  unfold unbind_branch, removeWhitelist, run_console, bind, history, emit.
  pose proof (remove_bind_trace (user_id data) PNone s) as Htr.
  destruct (remove_bind (user_id data) PNone s) as [[[|]|e] s1]; simpl in *.
  - right. destruct (negb (contains _ _)); simpl;
      rewrite console_calls_app, Htr; reflexivity.
  - left. by rewrite Htr.
  - left. by rewrite Htr.
Qed.

(** ** The reply of the HTTP handler *)

(** C3 (code at the failing input): for an admin's [/admin ban Steve]
    the handler never returns: either the whitelist removal raises
    [ServerConnectionError], or the reply is built from [commands[3]]
    of a three-token message and raises [IndexError]. *)
Theorem admin_ban_never_returns_success (w : World) (s : St) :
  ∃ e s', mainHander w sample_config (private_message "/admin ban Steve" 1001) s
          = (Raise e, s')
          ∧ (exn_class_of e = IndexError ∨ exn_class_of e = ServerConnectionError).
Proof.
  unfold mainHander, bind, dispatch. simpl.
  unfold bind, admin_branch. simpl.
  unfold bind, getitem. simpl. unfold ret at 1. simpl.
  unfold removeWhitelist, run_console, bind, history, emit. simpl.
  destruct (contains _ _); simpl.
  - unfold ban_bind, try_except, bind, execute. simpl.
    do 2 eexists. split; [reflexivity | by left].
  - do 2 eexists. split; [reflexivity | by right].
Qed.

(** ** Initialization of the table *)

Lemma insert_admins_keeps (admin_list : list pyval) (t t' : table) (k : string) :
  insert_admins admin_list t = Ret t' →
  t !! k = Some (Row None true false) →
  t' !! k = Some (Row None true false).
Proof.
  revert t. induction admin_list as [|qq rest IH]; intros t Hrun Hk; simpl in Hrun.
  - by injection Hrun as <-.
  - unfold sql_replace_admin in Hrun.
    destruct (bind_param qq) as [[k0|]|e]; try discriminate.
    apply (IH _ Hrun).
    destruct (decide (k0 = k)) as [->|Hne].
    + apply lookup_insert_eq.
    + by rewrite lookup_insert_ne.
Qed.

Lemma insert_admins_rows (admin_list : list pyval) (t t' : table) (qq : pyval) :
  insert_admins admin_list t = Ret t' →
  qq ∈ admin_list →
  ∃ k, bind_param qq = Ret (Some k) ∧ t' !! k = Some (Row None true false).
Proof.
  revert t. induction admin_list as [|q rest IH]; intros t Hrun Hin.
  - by apply elem_of_nil in Hin.
  - simpl in Hrun. unfold sql_replace_admin in Hrun.
    destruct (bind_param q) as [[k0|]|e] eqn:Hq; try discriminate.
    apply elem_of_cons in Hin as [->|Hin].
    + exists k0. split; [done|].
      apply (insert_admins_keeps _ _ _ _ Hrun), lookup_insert_eq.
    + by apply (IH _ Hrun).
Qed.

Lemma insert_admins_total (admin_list : list pyval) (t : table) :
  forallb storable admin_list = true → ∃ t', insert_admins admin_list t = Ret t'.
Proof.
  revert t. induction admin_list as [|q rest IH]; intros t Hall; simpl.
  - by eexists.
  - simpl in Hall. apply andb_prop in Hall as [Hq Hrest].
    unfold sql_replace_admin. unfold storable in Hq.
    destruct (bind_param q) as [[k0|]|e]; try discriminate.
    by apply IH.
Qed.

(** C10: when every configured admin id is a value the table can store
    as a key, [init_database] completes and afterwards every id of the
    list has the row (mc NULL, is_admin true, ban false), whatever the
    table held before. *)
Theorem init_database_resets_admin_rows (admin_list : list pyval) (s : St) :
  forallb storable admin_list = true →
  ∃ t', init_database admin_list s = (Ret tt, {| db := t'; trace := trace s |})
        ∧ ∀ qq, qq ∈ admin_list →
            ∃ k, bind_param qq = Ret (Some k) ∧ t' !! k = Some (Row None true false).
Proof.
  intros Hall.
  destruct (insert_admins_total admin_list (db s) Hall) as [t' Ht'].
  exists t'. split.
  - unfold init_database, execute. by rewrite Ht'.
  - intros qq Hin. by apply (insert_admins_rows admin_list (db s)).
Qed.

Lemma init_database_resets_admin_rows_witness :
  forallb storable [PInt 1001; PStr "1002"] = true
  ∧ ∃ t', init_database [PInt 1001; PStr "1002"]
            (fresh (<["1001" := Row (Some "Steve") false true]> ∅))
          = (Ret tt, {| db := t'; trace := [] |})
        ∧ ∀ qq, qq ∈ [PInt 1001; PStr "1002"] →
            ∃ k, bind_param qq = Ret (Some k) ∧ t' !! k = Some (Row None true false).
Proof.
  split; [reflexivity|].
  apply (init_database_resets_admin_rows [PInt 1001; PStr "1002"]
           (fresh (<["1001" := Row (Some "Steve") false true]> ∅))).
  reflexivity.
Defined.

(** ** Server status prober *)

(** What the first iteration of the loop in [getMinecraftServerInfo]
    does with the round trip. *)
Lemma getMinecraftServerInfo_step (w : World) (addr : string) (s : St) :
  getMinecraftServerInfo w addr s
  = (match probe_result w (trace s) addr with
     | ProbeOk st => Ret (online_info st)
     | ProbeRaise e =>
         if is_Timeout_or_gaierror (exn_class_of e)
         then Ret (offline_info true (exn_msg e))
         else Raise e
     end,
     {| db := db s; trace := trace s ++ [EvProbe addr] |}).
Proof.
  unfold getMinecraftServerInfo. simpl.
  unfold bind, try_except, round_trip, bind, history, emit. simpl.
  destruct (probe_result w (trace s) addr) as [st|e]; simpl; [reflexivity|].
  destruct (is_Timeout_or_gaierror (exn_class_of e)); reflexivity.
Qed.

(** C6 (counterexample): a server that refuses the connection makes
    the prober raise; no structured result is returned. *)
Lemma prober_raises_on_refused_connection :
  getMinecraftServerInfo world_down "mc.example.org:25565" (fresh ∅)
  = (Raise (Exn OtherException "[Errno 111] Connection refused"),
     {| db := ∅; trace := [EvProbe "mc.example.org:25565"] |}).
Proof. reflexivity. Qed.

(** C6 (amended): for every address the prober makes at least one
    and at most 5 round trips with that address and then ends, leaving
    the table alone, and what it yields is decided by the round trip:
    the structured result with the server's data when the server
    answers, the structured offline result with the error flag and the
    message when the round trip raises [TimeoutError] or
    [socket.gaierror], and, when the round trip raises any other
    exception, that exception, which leaves the prober uncaught. *)
Theorem prober_ends_within_retry_bound (w : World) (addr : string) (s : St) :
  ∃ n : nat,
    (1 ≤ n ≤ 5)%nat
    ∧ getMinecraftServerInfo w addr s
      = (match probe_result w (trace s ++ replicate (n - 1) (EvProbe addr)) addr with
         | ProbeOk st =>
             Ret {| version := st_version st; protocol_version := st_protocol st;
                    players := st_players st; players_online := st_online st;
                    players_max := st_max st; motd := PStr (st_description st);
                    latency := st_latency st; online := true; error := false;
                    msg := "success" |}
         | ProbeRaise e =>
             if is_Timeout_or_gaierror (exn_class_of e)
             then Ret {| version := "N/A"; protocol_version := -1; players := [];
                         players_online := -1; players_max := -1; motd := PInt (-1);
                         latency := "-1"; online := false; error := true;
                         msg := exn_msg e |}
             else Raise e
         end,
         {| db := db s; trace := trace s ++ replicate n (EvProbe addr) |}).
Proof.
  exists 1%nat. split; [lia|].
  rewrite getMinecraftServerInfo_step. simpl. rewrite app_nil_r.
  destruct (probe_result w (trace s) addr) as [st|e]; [reflexivity|].
  by destruct (is_Timeout_or_gaierror (exn_class_of e)).
Qed.

(** ** The checks in front of [/bind] *)

Lemma query_ban_pure (qq mc_ : pyval) (s : St) : ∃ o, query_ban qq mc_ s = (o, s).
Proof.
  unfold query_ban.
  destruct (negb (truthy qq) && negb (truthy mc_)); [by eexists|].
  unfold try_except, bind, fetch.
  destruct (if truthy qq then bind_param qq else Ret None) as [k|e]; simpl.
  - destruct (if truthy mc_ then bind_param mc_ else Ret None) as [n|e]; simpl.
    + by eexists.
    + destruct (is_sqlite3_Error (exn_class_of e)); by eexists.
  - destruct (is_sqlite3_Error (exn_class_of e)); by eexists.
Qed.

Lemma query_count_pure (qq mc_ : pyval) (s : St) : ∃ o, query_count qq mc_ s = (o, s).
Proof.
  unfold query_count, try_except, fetch.
  destruct (truthy qq).
  - destruct (bind_param qq) as [k|e]; simpl; [by eexists|].
    destruct (is_sqlite3_Error (exn_class_of e)); by eexists.
  - destruct (truthy mc_).
    + destruct (bind_param mc_) as [k|e]; simpl; [by eexists|].
      destruct (is_sqlite3_Error (exn_class_of e)); by eexists.
    + by eexists.
Qed.

Lemma query_ban_falsy_sender (qq : pyval) (s : St) :
  truthy qq = false → ∃ e, query_ban qq PNone s = (Raise e, s).
Proof. intros H. unfold query_ban. rewrite H. simpl. by eexists. Qed.

(** The ban values of the rows bound to [name] contain [true] exactly
    when [name] is banned. *)
Lemma select_ban_mc_banned (name : string) (t : table) :
  existsb id (select_ban_mc (Some name) t) = true ↔ banned name t.
Proof.
  unfold select_ban_mc, banned, map_Exists. rewrite existsb_exists. split.
  - intros (b & Hin & Hb). unfold id in Hb. subst b.
    apply list_elem_of_In, list_elem_of_fmap in Hin as ([k r] & Hban & Hin).
    apply elem_of_map_to_list, map_lookup_filter_Some in Hin as [Hk Hmc].
    exists k, r. by repeat split.
  - intros (k & r & Hk & Hmc & Hban). exists true. split; [|done].
    apply list_elem_of_In, list_elem_of_fmap. exists (k, r). split; [done|].
    by apply elem_of_map_to_list, map_lookup_filter_Some.
Qed.

Lemma query_ban_name (name : string) (s : St) :
  name ≠ "" →
  query_ban PNone (PStr name) s = (Ret (bool_decide (banned name (db s))), s).
Proof.
  intros Hne.
  assert (Heq : existsb id (select_ban_mc (Some name) (db s))
                = bool_decide (banned name (db s))).
  { destruct (existsb id (select_ban_mc (Some name) (db s))) eqn:Hex; symmetry.
    - by apply bool_decide_eq_true, select_ban_mc_banned.
    - apply bool_decide_eq_false. intros Hb.
      apply select_ban_mc_banned in Hb. congruence. }
  unfold query_ban. simpl.
  destruct (String.eqb_spec name "") as [|_]; [done|]. simpl.
  unfold try_except, bind, fetch, ret. rewrite <- Heq. reflexivity.
Qed.

Lemma query_ban_empty_name (s : St) : ∃ e, query_ban PNone (PStr "") s = (Raise e, s).
Proof. by eexists. Qed.

(** The row [WHERE qq = ?] selects for a parameter. *)
Lemma row_of_key (qq : pyval) (t : table) (r : row) :
  row_of qq t = Some r → ∃ k, bind_param qq = Ret (Some k) ∧ t !! k = Some r.
Proof.
  unfold row_of. destruct (bind_param qq) as [[k|]|e]; try done. by exists k.
Qed.

Lemma query_ban_sender_row (qq : pyval) (r : row) (s : St) :
  truthy qq = true → row_of qq (db s) = Some r →
  query_ban qq PNone s = (Ret (ban r), s).
Proof.
  intros Ht (k & Hk & Hr)%row_of_key. unfold query_ban. rewrite Ht. simpl.
  unfold try_except, bind, fetch, ret. rewrite Hk. simpl. rewrite Hr. simpl.
  by destruct (ban r).
Qed.

Lemma query_count_sender_row (qq : pyval) (r : row) (s : St) :
  truthy qq = true → row_of qq (db s) = Some r →
  query_count qq PNone s = (Ret 1, s).
Proof.
  intros Ht (k & Hk & Hr)%row_of_key. unfold query_count. rewrite Ht.
  unfold try_except, fetch. rewrite Hk. simpl. by rewrite Hr.
Qed.

(** The [/bind] branch with a two-token message, check by check; the
    four queries leave the state as it is. *)
Lemma bind_branch_checks (w : World) (data : request) (s : St) (cmd name : string) :
  split_space (raw_message data) = [cmd; name] →
  bind_branch w data s =
    match query_ban (user_id data) PNone s with
    | (Raise e, _) => (Raise e, s)
    | (Ret true, _) => (Ret (sender_banned w (user_id data)), s)
    | (Ret false, _) =>
        match query_ban PNone (PStr name) s with
        | (Raise e, _) => (Raise e, s)
        | (Ret true, _) => (Ret (name_banned w (user_id data)), s)
        | (Ret false, _) =>
            match query_count (user_id data) PNone s with
            | (Raise e, _) => (Raise e, s)
            | (Ret n, _) =>
                if negb (n =? 0) then (Ret (already_bound w (user_id data)), s)
                else
                  match query_count PNone (PStr name) s with
                  | (Raise e, _) => (Raise e, s)
                  | (Ret n, _) =>
                      if negb (n =? 0) then (Ret (name_taken w (user_id data) name), s)
                      else bindHandler w (raw_message data) (user_id data) s
                  end
            end
        end
    end.
Proof.
  intros Hsplit. unfold bind_branch. rewrite Hsplit. simpl. unfold bind at 1.
  destruct (query_ban_pure (user_id data) PNone s) as [[[|]|e] ->]; try reflexivity.
  unfold bind at 1. unfold getitem at 1. simpl. unfold ret at 1. unfold bind at 1.
  destruct (query_ban_pure PNone (PStr name) s) as [[[|]|e] ->]; try reflexivity.
  unfold bind at 1.
  destruct (query_count_pure (user_id data) PNone s) as [[n|e] ->]; try reflexivity.
  destruct (negb (n =? 0)); [reflexivity|].
  unfold bind at 1. unfold getitem at 1. simpl. unfold ret at 1. unfold bind at 1.
  destruct (query_count_pure PNone (PStr name) s) as [[m|e] ->]; try reflexivity.
  destruct (negb (m =? 0)); reflexivity.
Qed.

(** A message that starts with [/bind] reaches the [/bind] branch. *)
Lemma dispatch_bind (w : World) (config : Config) (data : request) (s : St) :
  String.prefix "/bind" (raw_message data) = true →
  dispatch w config data s
  = match bind_branch w data s with
    | (Ret m, s') => (Ret (m, true), s')
    | (Raise e, s') => (Raise e, s')
    end.
Proof.
  intros Hp. unfold dispatch.
  destruct (String.eqb_spec (raw_message data) "/status") as [E|_].
  { rewrite E in Hp. discriminate. }
  destruct (String.eqb_spec (raw_message data) "/help") as [E|_].
  { rewrite E in Hp. discriminate. }
  rewrite Hp. unfold bind. by destruct (bind_branch w data s) as [[m|e] s'].
Qed.

(** With a token count other than 2, the reply of a [/bind] message
    is the message itself, in every world and state. *)
Lemma dispatch_bind_wrong_arity (w : World) (config : Config) (data : request) (s : St) :
  String.prefix "/bind" (raw_message data) = true →
  length (split_space (raw_message data)) ≠ 2%nat →
  dispatch w config data s = (Ret (raw_message data, true), s).
Proof.
  intros Hp Hlen. rewrite (dispatch_bind _ _ _ _ Hp). unfold bind_branch.
  destruct (Nat.eqb_spec (length (split_space (raw_message data))) 2); [done|].
  reflexivity.
Qed.

(** What [mainHander] adds after the dispatch is at most one call of
    the gateway. *)
Lemma mainHander_after_dispatch (w : World) (config : Config) (data : request)
    (s s1 : St) (o : outcome (string * bool)) :
  dispatch w config data s = (o, s1) →
  db (mainHander w config data s).2 = db s1
  ∧ console_calls (trace (mainHander w config data s).2) = console_calls (trace s1).
Proof.
  intros Hd. unfold mainHander, bind. rewrite Hd.
  destruct o as [[m [|]]|e]; simpl; try done.
  - unfold httpx_post, bind, history, emit.
    destruct (String.eqb (message_type data) "group"); simpl.
    { destruct (post_error w _ _ _); simpl;
        by rewrite console_calls_app, app_nil_r. }
    destruct (String.eqb (message_type data) "private"); simpl; [|done].
    destruct (post_error w _ _ _); simpl;
      by rewrite console_calls_app, app_nil_r.
Qed.

(** ** Bans *)

(** C2 (counterexample): sender 2002 binds Steve and an admin bans
    that username, so the ban flag of Steve is set. The admin then
    unbinds Steve, which deletes the row together with its flag, and
    the next [/bind Steve], from sender 3003, creates a binding. *)
Lemma ban_lifted_by_admin_unbind :
  db after_ban = <["2002" := Row (Some "Steve") false true]> ∅
  ∧ db after_ban_and_unbind = ∅
  ∧ (mainHander world_ok sample_config (private_message "/bind Steve" 3003)
       after_ban_and_unbind).1 = Ret "success"
  ∧ db (mainHander world_ok sample_config (private_message "/bind Steve" 3003)
          after_ban_and_unbind).2
    = <["3003" := Row (Some "Steve") false false]> ∅
  ∧ last_reply (trace (mainHander world_ok sample_config
                         (private_message "/bind Steve" 3003) after_ban_and_unbind).2)
    = Some (PStr "[CQ:at,qq=3003] 已为玩家 Steve 添加白名单！").
Proof. vm_compute. repeat split. Qed.

Lemma dispatch_bind_banned_name (w : World) (config : Config) (data : request)
    (s : St) (cmd name : string) :
  String.prefix "/bind" (raw_message data) = true →
  split_space (raw_message data) = [cmd; name] →
  banned name (db s) →
  ∃ o, dispatch w config data s = (o, s)
       ∧ match o with
         | Raise _ => True
         | Ret (m, _) =>
             m = sender_banned w (user_id data) ∨ m = name_banned w (user_id data)
         end.
Proof.
  intros Hp Hsplit Hban.
  rewrite (dispatch_bind _ _ _ _ Hp), (bind_branch_checks _ _ _ _ _ Hsplit).
  destruct (query_ban_pure (user_id data) PNone s) as [[[|]|e] ->].
  - eexists. split; [reflexivity|]. by left.
  - destruct (decide (name = "")) as [->|Hne].
    + destruct (query_ban_empty_name s) as [e ->]. by eexists.
    + rewrite (query_ban_name _ _ Hne), (bool_decide_eq_true_2 _ Hban).
      eexists. split; [reflexivity|]. by right.
  - by eexists.
Qed.

(** C2 (amended): while some row with [mc = name] carries the ban
    flag, a [/bind <name>] request from any sender creates no binding:
    the dispatch ends in the state it started in, with one of the two
    ban refusals as reply or with an exception, the table is left as
    it was and no whitelist call is made. *)
Theorem banned_name_bind_rejected (w : World) (config : Config) (data : request)
    (s : St) (cmd name : string) :
  String.prefix "/bind" (raw_message data) = true →
  split_space (raw_message data) = [cmd; name] →
  banned name (db s) →
  (∃ o, dispatch w config data s = (o, s)
        ∧ match o with
          | Raise _ => True
          | Ret (m, _) =>
              m = sender_banned w (user_id data) ∨ m = name_banned w (user_id data)
          end)
  ∧ db (mainHander w config data s).2 = db s
  ∧ console_calls (trace (mainHander w config data s).2) = console_calls (trace s).
Proof.
  intros Hp Hsplit Hban.
  destruct (dispatch_bind_banned_name w config data s cmd name Hp Hsplit Hban)
    as (o & Hd & Ho).
  split; [by exists o|].
  exact (mainHander_after_dispatch w config data s s o Hd).
Qed.

Lemma banned_name_bind_rejected_witness :
  (∃ o, dispatch world_ok sample_config (private_message "/bind Steve" 3003) after_ban
        = (o, after_ban)
        ∧ match o with
          | Raise _ => True
          | Ret (m, _) =>
              m = sender_banned world_ok (PInt 3003) ∨ m = name_banned world_ok (PInt 3003)
          end)
  ∧ db (mainHander world_ok sample_config (private_message "/bind Steve" 3003) after_ban).2
    = db after_ban
  ∧ console_calls
      (trace (mainHander world_ok sample_config (private_message "/bind Steve" 3003)
                after_ban).2)
    = console_calls (trace after_ban).
Proof.
  apply (banned_name_bind_rejected world_ok sample_config
           (private_message "/bind Steve" 3003) after_ban "/bind" "Steve").
  - reflexivity.
  - reflexivity.
  - exists "2002", (Row (Some "Steve") false true). by vm_compute.
Defined.

(** ** Configured admins and [/bind] *)

(** C5 (counterexample): admin 1001 has the row written at startup;
    the admin's own [/unbind] deletes it, and the admin's next
    [/bind Steve] passes the duplicate check and creates a binding. *)
Lemma admin_binds_after_own_unbind :
  PInt 1001 ∈ admin sample_config
  ∧ db after_init = <["1001" := Row None true false]> ∅
  ∧ db after_init_and_unbind = ∅
  ∧ (mainHander world_ok sample_config (private_message "/bind Steve" 1001)
       after_init_and_unbind).1 = Ret "success"
  ∧ db (mainHander world_ok sample_config (private_message "/bind Steve" 1001)
          after_init_and_unbind).2
    = <["1001" := Row (Some "Steve") false false]> ∅
  ∧ last_reply (trace (mainHander world_ok sample_config
                         (private_message "/bind Steve" 1001) after_init_and_unbind).2)
    = Some (PStr "[CQ:at,qq=1001] 已为玩家 Steve 添加白名单！").
Proof. split; [by constructor|]. vm_compute. repeat split. Qed.

Lemma init_database_row (admin_list : list pyval) (s0 s1 : St) (qq : pyval) :
  init_database admin_list s0 = (Ret tt, s1) →
  qq ∈ admin_list →
  row_of qq (db s1) = Some (Row None true false).
Proof.
  unfold init_database, execute. intros Hrun Hin.
  destruct (insert_admins admin_list (db s0)) as [t'|e] eqn:Hins; [|discriminate].
  injection Hrun as <-. simpl.
  destruct (insert_admins_rows _ _ _ _ Hins Hin) as (k & Hk & Hrow).
  unfold row_of. by rewrite Hk.
Qed.

Lemma dispatch_bind_sender_row (w : World) (config : Config) (data : request)
    (s : St) (cmd name : string) (r : row) :
  String.prefix "/bind" (raw_message data) = true →
  split_space (raw_message data) = [cmd; name] →
  row_of (user_id data) (db s) = Some r →
  ∃ o, dispatch w config data s = (o, s)
       ∧ (truthy (user_id data) = true → ban r = false → name ≠ "" →
          ¬ banned name (db s) →
          o = Ret (already_bound w (user_id data), true)).
Proof.
  intros Hp Hsplit Hrow.
  rewrite (dispatch_bind _ _ _ _ Hp), (bind_branch_checks _ _ _ _ _ Hsplit).
  destruct (truthy (user_id data)) eqn:Ht.
  - rewrite (query_ban_sender_row _ _ _ Ht Hrow).
    destruct (ban r).
    { eexists. split; [reflexivity|]. by intros _ ?. }
    destruct (decide (name = "")) as [->|Hne].
    { destruct (query_ban_empty_name s) as [e ->]. eexists. split; [reflexivity|]. done. }
    rewrite (query_ban_name _ _ Hne).
    destruct (bool_decide (banned name (db s))) eqn:Hb.
    { apply bool_decide_eq_true in Hb. eexists. split; [reflexivity|]. done. }
    rewrite (query_count_sender_row _ _ _ Ht Hrow). simpl.
    eexists. split; reflexivity.
  - destruct (query_ban_falsy_sender _ s Ht) as [e ->].
    eexists. split; [reflexivity|]. done.
Qed.

(** C5 (amended): as long as the row that [init_database] wrote for a
    configured admin id is still in the table, a two-token [/bind]
    message from that sender creates no binding: the table is left as
    it was and no whitelist call is made; and when the sender id is
    truthy and the name is non-empty and not banned, the reply is the
    refusal of the duplicate-binding check. *)
Theorem admin_row_blocks_bind (w : World) (config : Config) (data : request)
    (s0 s1 s : St) (cmd name : string) :
  init_database (admin config) s0 = (Ret tt, s1) →
  user_id data ∈ admin config →
  row_of (user_id data) (db s) = row_of (user_id data) (db s1) →
  String.prefix "/bind" (raw_message data) = true →
  split_space (raw_message data) = [cmd; name] →
  db (mainHander w config data s).2 = db s
  ∧ console_calls (trace (mainHander w config data s).2) = console_calls (trace s)
  ∧ (truthy (user_id data) = true → name ≠ "" → ¬ banned name (db s) →
     dispatch w config data s = (Ret (already_bound w (user_id data), true), s)).
Proof.
  intros Hinit Hin Hsame Hp Hsplit.
  rewrite (init_database_row _ _ _ _ Hinit Hin) in Hsame.
  destruct (dispatch_bind_sender_row w config data s cmd name _ Hp Hsplit Hsame)
    as (o & Hd & Ho).
  destruct (mainHander_after_dispatch w config data s s o Hd) as [Hdb Hcalls].
  repeat split; [done..|].
  intros Ht Hne Hnb. rewrite Hd. f_equal. by apply Ho.
Qed.

Lemma admin_row_blocks_bind_witness :
  db (mainHander world_ok sample_config (private_message "/bind Steve" 1001) after_init).2
  = db after_init
  ∧ console_calls
      (trace (mainHander world_ok sample_config (private_message "/bind Steve" 1001)
                after_init).2)
    = console_calls (trace after_init)
  ∧ (truthy (PInt 1001) = true → "Steve" ≠ "" → ¬ banned "Steve" (db after_init) →
     dispatch world_ok sample_config (private_message "/bind Steve" 1001) after_init
     = (Ret (already_bound world_ok (PInt 1001), true), after_init)).
Proof.
  apply (admin_row_blocks_bind world_ok sample_config
           (private_message "/bind Steve" 1001) (fresh ∅) after_init after_init
           "/bind" "Steve").
  - reflexivity.
  - by constructor.
  - reflexivity.
  - reflexivity.
  - reflexivity.
Defined.

(** * Further properties *)

(** ** Binding store: rows and counts *)

Lemma St_eta (s : St) : {| db := db s; trace := trace s |} = s.
Proof. by destruct s. Qed.

Lemma bound_filter (name : string) (t : table) :
  (0 <? Z.of_nat (size (filter (mc_is name) t))) = bool_decide (bound name t).
Proof.
  destruct (decide (filter (mc_is name) t = ∅)) as [He|Hne].
  - rewrite He, map_size_empty. simpl. symmetry. apply bool_decide_eq_false.
    intros (k & r & Hk & Hr).
    assert (filter (mc_is name) t !! k = Some r) as Hf
      by by apply map_lookup_filter_Some.
    rewrite He in Hf. by rewrite lookup_empty in Hf.
  - assert (size (filter (mc_is name) t) ≠ 0%nat) as Hsz
      by by apply map_size_non_empty_iff.
    destruct (map_choose _ Hne) as (k & r & Hf).
    apply map_lookup_filter_Some in Hf as [Hk Hr].
    rewrite (bool_decide_eq_true_2 (bound name t)); [|by exists k, r].
    apply Z.ltb_lt. lia.
Qed.

Lemma count_mc_unbound (name : string) (t : table) :
  ¬ bound name t → count_mc (Some name) t = 0.
Proof.
  intros Hnb. unfold count_mc.
  pose proof (bound_filter name t) as H.
  rewrite (bool_decide_eq_false_2 _ Hnb) in H. apply Z.ltb_ge in H. lia.
Qed.

Lemma truthy_name (name : string) : name ≠ "" → truthy (PStr name) = true.
Proof. intros H. simpl. by destruct (String.eqb_spec name ""). Qed.

(** X1: [add_bind] with a storable id and a username returns [True];
    afterwards [query_username] of that id gives the username, the row
    keeps the admin and ban flags it had (or gets the defaults), and
    the rows of all other ids are as before. *)
Theorem add_bind_then_lookup (qq : pyval) (name k : string) (s : St) :
  bind_param qq = Ret (Some k) →
  ∃ s', add_bind qq (PStr name) s = (Ret true, s')
        ∧ trace s' = trace s
        ∧ query_username qq s' = (Ret (PStr name), s')
        ∧ db s' !! k = Some (upserted name (db s !! k))
        ∧ ∀ k', k' ≠ k → db s' !! k' = db s !! k'.
Proof.
  intros Hk.
  exists {| db := <[k := upserted name (db s !! k)]> (db s); trace := trace s |}.
  split.
  { unfold add_bind, try_except, execute, sql_upsert. rewrite Hk. simpl.
    by destruct (db s !! k). }
  split; [done|]. split.
  { unfold query_username, try_except, fetch, select_mc. rewrite Hk. simpl.
    rewrite lookup_insert_eq. by destruct (db s !! k). }
  split; [by simpl; rewrite lookup_insert_eq|].
  intros k' Hne. simpl. by rewrite lookup_insert_ne.
Qed.

Lemma add_bind_then_lookup_witness :
  ∃ s', add_bind (PInt 2002) (PStr "Alex")
          (fresh (<["2002" := Row (Some "Steve") false true]> ∅)) = (Ret true, s')
        ∧ trace s' = trace (fresh (<["2002" := Row (Some "Steve") false true]> ∅))
        ∧ query_username (PInt 2002) s' = (Ret (PStr "Alex"), s')
        ∧ db s' !! "2002"
          = Some (upserted "Alex"
                    (db (fresh (<["2002" := Row (Some "Steve") false true]> ∅)) !! "2002"))
        ∧ ∀ k', k' ≠ "2002" →
            db s' !! k' = db (fresh (<["2002" := Row (Some "Steve") false true]> ∅)) !! k'.
Proof.
  apply (add_bind_then_lookup (PInt 2002) "Alex" "2002"
           (fresh (<["2002" := Row (Some "Steve") false true]> ∅))).
  reflexivity.
Defined.

(** X2: binding the same id twice is the same as binding it once with
    the last username: the second [add_bind] overwrites [mc] and adds
    no row, whatever the id is. *)
Theorem add_bind_last_wins (qq : pyval) (n1 n2 : string) (s : St) :
  (add_bind qq (PStr n2) (add_bind qq (PStr n1) s).2).2 = (add_bind qq (PStr n2) s).2.
Proof.
  unfold add_bind, try_except, execute, sql_upsert.
  destruct (bind_param qq) as [[k|]|e]; simpl.
  - destruct (db s !! k) as [r|] eqn:Hr; simpl;
      rewrite lookup_insert_eq; simpl; by rewrite insert_insert_eq.
  - reflexivity.
  - by destruct (is_sqlite3_Error (exn_class_of e)); simpl;
      destruct (is_sqlite3_Error (exn_class_of e)).
Qed.

(** X3: an id that cannot be stored as a key is never bound: for
    [None] and for a function object [add_bind] returns [False], for
    an integer beyond 64 bits it raises [OverflowError]; the state is
    left as it was. *)
Theorem add_bind_unstorable (qq : pyval) (name : string) (s : St) :
  storable qq = false →
  (add_bind qq (PStr name) s = (Ret false, s)
   ∨ ∃ e, add_bind qq (PStr name) s = (Raise e, s) ∧ exn_class_of e = OverflowError).
Proof.
  unfold storable, add_bind, try_except, execute, sql_upsert.
  destruct qq as [|z|x|f]; simpl; try discriminate.
  - intros _. by left.
  - destruct ((- 2 ^ 63 <=? z) && (z <? 2 ^ 63)); [discriminate|].
    intros _. right. by eexists.
  - intros _. by left.
Qed.

Lemma add_bind_unstorable_witness :
  add_bind (PInt (2 ^ 63)) (PStr "Steve") (fresh ∅) = (Ret false, fresh ∅)
  ∨ ∃ e, add_bind (PInt (2 ^ 63)) (PStr "Steve") (fresh ∅) = (Raise e, fresh ∅)
         ∧ exn_class_of e = OverflowError.
Proof. apply (add_bind_unstorable (PInt (2 ^ 63)) "Steve" (fresh ∅)). reflexivity. Defined.

(** ** Binding store: deletion *)

Lemma remove_bind_id_eq (qq mc_ : pyval) (k : string) (s : St) :
  truthy qq = true → bind_param qq = Ret (Some k) →
  remove_bind qq mc_ s
  = (Ret (bool_decide (is_Some (db s !! k))), {| db := delete k (db s); trace := trace s |}).
Proof.
  intros Ht Hk. unfold remove_bind. rewrite Ht. simpl.
  unfold try_except, bind, execute, sql_delete_qq. rewrite Hk.
  destruct (db s !! k) as [r|] eqn:Hr; simpl.
  - reflexivity.
  - by rewrite (delete_id _ _ Hr).
Qed.

Lemma query_count_name (name : string) (s : St) :
  name ≠ "" →
  query_count PNone (PStr name) s = (Ret (count_mc (Some name) (db s)), s).
Proof. intros Hne. unfold query_count. by rewrite (truthy_name _ Hne). Qed.

(** X4: [remove_bind] called with an id looks at the id only: it
    returns whether the id had a row, that row is gone afterwards, and
    every other row stays, also the rows bound to the username passed
    as [mc]. *)
Theorem remove_bind_by_id (qq mc_ : pyval) (k : string) (s : St) :
  truthy qq = true → bind_param qq = Ret (Some k) →
  ∃ s', remove_bind qq mc_ s = (Ret (bool_decide (is_Some (db s !! k))), s')
        ∧ trace s' = trace s
        ∧ db s' !! k = None
        ∧ ∀ k', k' ≠ k → db s' !! k' = db s !! k'.
Proof.
  intros Ht Hk. eexists. split; [by apply remove_bind_id_eq|].
  split; [done|]. split; simpl.
  - apply lookup_delete_eq.
  - intros k' Hne. by rewrite lookup_delete_ne.
Qed.

Lemma remove_bind_by_id_witness :
  ∃ s', remove_bind (PInt 1001) (PStr "Steve")
          (fresh (<["1001" := Row (Some "Alex") false false]>
                    (<["2002" := Row (Some "Steve") false false]> ∅)))
        = (Ret (bool_decide
                  (is_Some (db (fresh (<["1001" := Row (Some "Alex") false false]>
                                         (<["2002" := Row (Some "Steve") false false]> ∅)))
                            !! "1001"))), s')
        ∧ trace s' = trace (fresh (<["1001" := Row (Some "Alex") false false]>
                                     (<["2002" := Row (Some "Steve") false false]> ∅)))
        ∧ db s' !! "1001" = None
        ∧ ∀ k', k' ≠ "1001" →
            db s' !! k'
            = db (fresh (<["1001" := Row (Some "Alex") false false]>
                           (<["2002" := Row (Some "Steve") false false]> ∅))) !! k'.
Proof.
  apply (remove_bind_by_id (PInt 1001) (PStr "Steve") "1001"); reflexivity.
Defined.

(** X5: binding a fresh id and removing it again restores the state:
    [remove_bind] after [add_bind] returns [True] and leaves the table
    that was there before the binding. *)
Theorem add_bind_remove_bind (qq : pyval) (name k : string) (s : St) :
  truthy qq = true → bind_param qq = Ret (Some k) → db s !! k = None →
  remove_bind qq PNone (add_bind qq (PStr name) s).2 = (Ret true, s).
Proof.
  intros Ht Hk Hfresh.
  rewrite (remove_bind_id_eq _ _ _ _ Ht Hk).
  unfold add_bind, try_except, execute, sql_upsert. rewrite Hk. simpl.
  rewrite Hfresh. simpl. rewrite lookup_insert_eq.
  rewrite (bool_decide_eq_true_2 _ (mk_is_Some _ _ eq_refl)).
  rewrite delete_insert_id by done. by rewrite St_eta.
Qed.

Lemma add_bind_remove_bind_witness :
  remove_bind (PInt 2002) PNone (add_bind (PInt 2002) (PStr "Steve") (fresh ∅)).2
  = (Ret true, fresh ∅).
Proof. apply (add_bind_remove_bind (PInt 2002) "Steve" "2002" (fresh ∅)); reflexivity. Defined.

(** X6: [remove_bind] by username returns whether some row was bound
    to it and deletes exactly the rows bound to it: afterwards the
    count for the username is 0 and the other rows are as before. *)
Theorem remove_bind_by_name (name : string) (s : St) :
  name ≠ "" →
  ∃ s', remove_bind PNone (PStr name) s = (Ret (bool_decide (bound name (db s))), s')
        ∧ trace s' = trace s
        ∧ (∀ k r, db s' !! k = Some r ↔ db s !! k = Some r ∧ mc r ≠ Some name)
        ∧ query_count PNone (PStr name) s' = (Ret 0, s').
Proof.
  intros Hne. pose proof (truthy_name _ Hne) as Ht.
  exists {| db := filter (λ kr, ¬ mc_is name kr) (db s); trace := trace s |}.
  split.
  { unfold remove_bind. rewrite Ht. simpl.
    unfold try_except, bind, execute, sql_delete_mc. simpl.
    by rewrite bound_filter. }
  split; [done|]. split.
  { intros k r. simpl. by rewrite map_lookup_filter_Some. }
  rewrite (query_count_name _ _ Hne). cbn [db]. rewrite count_mc_unbound; [done|].
  intros (k & r & Hk & Hr). apply map_lookup_filter_Some in Hk as [_ Hn]. by apply Hn.
Qed.

Lemma remove_bind_by_name_witness :
  ∃ s', remove_bind PNone (PStr "Steve")
          (fresh (<["2002" := Row (Some "Steve") false false]> ∅))
        = (Ret (bool_decide
                  (bound "Steve"
                     (db (fresh (<["2002" := Row (Some "Steve") false false]> ∅))))), s')
        ∧ trace s' = trace (fresh (<["2002" := Row (Some "Steve") false false]> ∅))
        ∧ (∀ k r, db s' !! k = Some r
                  ↔ db (fresh (<["2002" := Row (Some "Steve") false false]> ∅)) !! k = Some r
                    ∧ mc r ≠ Some "Steve")
        ∧ query_count PNone (PStr "Steve") s' = (Ret 0, s').
Proof. apply (remove_bind_by_name "Steve"). discriminate. Defined.

(** X7: called without a usable argument (both [None], 0 or the empty
    string), [remove_bind], [query_ban] and [query_count] raise
    [ValueError], whereas [ban_bind] returns [False]; none of them
    changes the state. *)
Theorem store_calls_without_argument (qq mc_ : pyval) (s : St) :
  truthy qq = false → truthy mc_ = false →
  (∃ e, remove_bind qq mc_ s = (Raise e, s) ∧ exn_class_of e = ValueError)
  ∧ (∃ e, query_ban qq mc_ s = (Raise e, s) ∧ exn_class_of e = ValueError)
  ∧ (∃ e, query_count qq mc_ s = (Raise e, s) ∧ exn_class_of e = ValueError)
  ∧ ban_bind qq mc_ s = (Ret false, s).
Proof.
  intros Hq Hm. unfold remove_bind, query_ban, query_count, ban_bind.
  rewrite Hq, Hm. simpl. repeat split; try by eexists.
  unfold try_except, bind, execute. simpl. by rewrite St_eta.
Qed.

Lemma store_calls_without_argument_witness :
  (∃ e, remove_bind (PInt 0) (PStr "") (fresh ∅) = (Raise e, fresh ∅)
        ∧ exn_class_of e = ValueError)
  ∧ (∃ e, query_ban (PInt 0) (PStr "") (fresh ∅) = (Raise e, fresh ∅)
          ∧ exn_class_of e = ValueError)
  ∧ (∃ e, query_count (PInt 0) (PStr "") (fresh ∅) = (Raise e, fresh ∅)
          ∧ exn_class_of e = ValueError)
  ∧ ban_bind (PInt 0) (PStr "") (fresh ∅) = (Ret false, fresh ∅).
Proof. apply (store_calls_without_argument (PInt 0) (PStr "") (fresh ∅)); reflexivity. Defined.

(** ** Binding store: bans *)

Lemma sql_ban_mc_table (name : string) (t : table) :
  map_imap (λ k r, Some (if decide (mc_is name (k, r)) then set_ban r else r)) t
  = ban_if_bound name <$> t.
Proof.
  apply map_eq. intros k. rewrite map_lookup_imap, lookup_fmap.
  destruct (t !! k) as [r|]; [|done]. simpl. unfold ban_if_bound, mc_is. simpl.
  by repeat case_decide.
Qed.

Lemma banned_after_ban (name : string) (t : table) :
  banned name (ban_if_bound name <$> t) ↔ bound name t.
Proof.
  unfold banned, bound, map_Exists. split.
  - intros (k & r' & Hk & Hmc & _). rewrite lookup_fmap in Hk.
    destruct (t !! k) as [r|] eqn:Hr; [|done]. simpl in Hk. injection Hk as <-.
    exists k, r. split; [done|]. unfold ban_if_bound in Hmc. by case_decide.
  - intros (k & r & Hk & Hmc). exists k, (set_ban r).
    rewrite lookup_fmap, Hk. simpl. unfold ban_if_bound.
    rewrite decide_True by done. done.
Qed.

Lemma bound_after_ban (name' name : string) (t : table) :
  bound name' (ban_if_bound name <$> t) ↔ bound name' t.
Proof.
  unfold bound, map_Exists. split.
  - intros (k & r' & Hk & Hmc). rewrite lookup_fmap in Hk.
    destruct (t !! k) as [r|] eqn:Hr; [|done]. simpl in Hk. injection Hk as <-.
    exists k, r. split; [done|]. unfold ban_if_bound in Hmc. by case_decide.
  - intros (k & r & Hk & Hmc). exists k, (ban_if_bound name r).
    rewrite lookup_fmap, Hk. split; [done|]. unfold ban_if_bound. by case_decide.
Qed.

(** X8: [ban_bind] by username returns whether some row is bound to
    the username, sets the ban flag of exactly those rows and keeps
    their usernames and admin flags; afterwards [query_ban] of the
    username answers that same value, so banning a username nobody is
    bound to bans nothing. *)
Theorem ban_bind_by_name (name : string) (s : St) :
  name ≠ "" →
  ∃ s', ban_bind PNone (PStr name) s = (Ret (bool_decide (bound name (db s))), s')
        ∧ trace s' = trace s
        ∧ db s' = ban_if_bound name <$> db s
        ∧ query_ban PNone (PStr name) s' = (Ret (bool_decide (bound name (db s))), s').
Proof.
  intros Hne. pose proof (truthy_name _ Hne) as Ht.
  exists {| db := ban_if_bound name <$> db s; trace := trace s |}.
  split.
  { unfold ban_bind. rewrite Ht. unfold try_except, bind, execute, sql_ban_mc. simpl.
    by rewrite bound_filter, sql_ban_mc_table. }
  split; [done|]. split; [done|].
  rewrite (query_ban_name _ _ Hne). simpl. f_equal. f_equal.
  apply bool_decide_ext, banned_after_ban.
Qed.

Lemma ban_bind_by_name_witness :
  ∃ s', ban_bind PNone (PStr "Steve")
          (fresh (<["2002" := Row (Some "Steve") false false]> ∅))
        = (Ret (bool_decide
                  (bound "Steve"
                     (db (fresh (<["2002" := Row (Some "Steve") false false]> ∅))))), s')
        ∧ trace s' = trace (fresh (<["2002" := Row (Some "Steve") false false]> ∅))
        ∧ db s' = ban_if_bound "Steve"
                    <$> db (fresh (<["2002" := Row (Some "Steve") false false]> ∅))
        ∧ query_ban PNone (PStr "Steve") s'
          = (Ret (bool_decide
                    (bound "Steve"
                       (db (fresh (<["2002" := Row (Some "Steve") false false]> ∅))))), s').
Proof. apply (ban_bind_by_name "Steve"). discriminate. Defined.

Lemma existsb_select_ban_mc (name : string) (t : table) :
  existsb id (select_ban_mc (Some name) t) = bool_decide (banned name t).
Proof.
  destruct (existsb id (select_ban_mc (Some name) t)) eqn:Hex; symmetry.
  - by apply bool_decide_eq_true, select_ban_mc_banned.
  - apply bool_decide_eq_false. intros Hb.
    apply select_ban_mc_banned in Hb. congruence.
Qed.

(** X9: asked about an id and a username together, [query_ban]
    answers [True] exactly when the row of the id is banned or some
    row bound to the username is banned; the state is not changed. *)
Theorem query_ban_either (qq : pyval) (name k : string) (s : St) :
  truthy qq = true → bind_param qq = Ret (Some k) → name ≠ "" →
  query_ban qq (PStr name) s
  = (Ret (from_option ban false (db s !! k) || bool_decide (banned name (db s))), s).
Proof.
  intros Ht Hk Hne. unfold query_ban. rewrite Ht, (truthy_name _ Hne). simpl.
  unfold try_except, bind, fetch, ret. rewrite Hk.
  change (bind_param (PStr name)) with (Ret (A := option string) (Some name)).
  cbn [fst snd]. rewrite existsb_app. f_equal. f_equal. f_equal.
  - unfold select_ban_qq. destruct (db s !! k) as [r|]; simpl; [|done].
    by destruct (ban r).
  - exact (existsb_select_ban_mc name (db s)).
Qed.

Lemma query_ban_either_witness :
  query_ban (PInt 3003) (PStr "Steve")
    (fresh (<["2002" := Row (Some "Steve") false true]> ∅))
  = (Ret (from_option ban false
            (db (fresh (<["2002" := Row (Some "Steve") false true]> ∅)) !! "3003")
          || bool_decide
               (banned "Steve"
                  (db (fresh (<["2002" := Row (Some "Steve") false true]> ∅))))),
     fresh (<["2002" := Row (Some "Steve") false true]> ∅)).
Proof.
  apply (query_ban_either (PInt 3003) "Steve" "3003"); [reflexivity..|discriminate].
Defined.

(** ** Initialization *)

(** The keys [init_database] writes for an admin list. *)
Lemma insert_admins_lookup (admin_list : list pyval) (t t' : table) (k : string) :
  insert_admins admin_list t = Ret t' →
  t' !! k = if bool_decide (Exists (λ qq, bind_param qq = Ret (Some k)) admin_list)
            then Some (Row None true false)
            else t !! k.
Proof.
  revert t. induction admin_list as [|q rest IH]; intros t Hrun; simpl in Hrun.
  - injection Hrun as <-. rewrite bool_decide_eq_false_2; [done|].
    by intros ?%Exists_nil.
  - unfold sql_replace_admin in Hrun.
    destruct (bind_param q) as [[k0|]|e] eqn:Hq; try discriminate.
    rewrite (IH _ Hrun).
    destruct (decide (k0 = k)) as [->|Hne].
    + rewrite lookup_insert_eq.
      rewrite (bool_decide_eq_true_2 (Exists _ (q :: rest))); [|by left].
      by case_bool_decide.
    + rewrite lookup_insert_ne by done.
      destruct (bool_decide (Exists (λ qq, bind_param qq = Ret (Some k)) rest)) eqn:Hb.
      * apply bool_decide_eq_true in Hb.
        rewrite bool_decide_eq_true_2; [done|by right].
      * apply bool_decide_eq_false in Hb.
        rewrite bool_decide_eq_false_2; [done|].
        intros [Hh|Ht]%Exists_cons; [congruence|done].
Qed.

Lemma insert_admins_storable (admin_list : list pyval) (t t' : table) :
  insert_admins admin_list t = Ret t' → forallb storable admin_list = true.
Proof.
  revert t. induction admin_list as [|q rest IH]; intros t Hrun; simpl in *; [done|].
  unfold sql_replace_admin, storable in *.
  destruct (bind_param q) as [[k0|]|e]; try discriminate. simpl. by eapply IH.
Qed.

(** X10: a completed [init_database] changes nothing but the rows of
    the configured admins: every row whose key is not the key of an
    admin id is as before, the trace is as before, and running the
    initialization a second time changes nothing more. *)
Theorem init_database_frame_idempotent (admin_list : list pyval) (s s1 : St) :
  init_database admin_list s = (Ret tt, s1) →
  trace s1 = trace s
  ∧ (∀ k, ¬ Exists (λ qq, bind_param qq = Ret (Some k)) admin_list →
          db s1 !! k = db s !! k)
  ∧ init_database admin_list s1 = (Ret tt, s1).
Proof.
  unfold init_database, execute. intros Hrun.
  destruct (insert_admins admin_list (db s)) as [t'|e] eqn:Hins; [|discriminate].
  injection Hrun as <-. split; [done|]. split.
  - intros k Hk. simpl. rewrite (insert_admins_lookup _ _ _ k Hins).
    by rewrite bool_decide_eq_false_2.
  - simpl.
    destruct (insert_admins_total admin_list t' (insert_admins_storable _ _ _ Hins))
      as [t'' Ht'']. rewrite Ht''. f_equal. f_equal.
    apply map_eq. intros k.
    rewrite (insert_admins_lookup _ _ _ k Ht''), (insert_admins_lookup _ _ _ k Hins).
    by case_bool_decide.
Qed.

Lemma init_database_frame_idempotent_witness :
  trace after_init = trace (fresh ∅)
  ∧ (∀ k, ¬ Exists (λ qq, bind_param qq = Ret (Some k)) (admin sample_config) →
          db after_init !! k = db (fresh ∅) !! k)
  ∧ init_database (admin sample_config) after_init = (Ret tt, after_init).
Proof.
  apply (init_database_frame_idempotent (admin sample_config) (fresh ∅) after_init).
  reflexivity.
Defined.

(** X11: when some configured admin id cannot be stored as a key
    ([None], a function object, an integer beyond 64 bits),
    [init_database] raises and commits nothing: the state is the one
    before the call, also for the ids listed before the bad one. *)
Theorem init_database_atomic (admin_list : list pyval) (s : St) :
  forallb storable admin_list = false →
  ∃ e, init_database admin_list s = (Raise e, s).
Proof.
  intros Hbad. unfold init_database, execute.
  destruct (insert_admins admin_list (db s)) as [t'|e] eqn:Hins.
  - apply insert_admins_storable in Hins. congruence.
  - by exists e.
Qed.

Lemma init_database_atomic_witness :
  ∃ e, init_database [PInt 1001; PNone]
         (fresh (<["1001" := Row (Some "Steve") false true]> ∅))
       = (Raise e, fresh (<["1001" := Row (Some "Steve") false true]> ∅)).
Proof. apply (init_database_atomic [PInt 1001; PNone]). reflexivity. Defined.

(** ** Status report *)

Lemma append_assoc (a b c : string) : (a +:+ b) +:+ c = a +:+ (b +:+ c).
Proof.
  induction a as [|x a IH]; [done|].
  change (String x ((a +:+ b) +:+ c) = String x (a +:+ (b +:+ c))). by rewrite IH.
Qed.

Lemma append_empty_r (a : string) : a +:+ "" = a.
Proof.
  induction a as [|x a IH]; [done|].
  change (String x (a +:+ "") = String x a). by rewrite IH.
Qed.

Lemma getMinecraftServerInfo_info (w : World) (addr : string) (s : St) :
  getMinecraftServerInfo w addr s
  = (info_of (probe_result w (trace s) addr),
     {| db := db s; trace := trace s ++ [EvProbe addr] |}).
Proof. apply getMinecraftServerInfo_step. Qed.

(** The loop of [statusHandler] probes the servers in the order of the
    configuration and stops at the first exception. *)
Lemma status_loop_probes (w : World) (servers : list server_entry) (acc : string) (s : St) :
  ∃ addrs o,
    status_loop w servers acc s
    = (o, {| db := db s; trace := trace s ++ (EvProbe <$> addrs) |})
    ∧ addrs `prefix_of` (server_address w <$> servers)
    ∧ (∀ r, o = Ret r → addrs = server_address w <$> servers).
Proof.
  revert acc s. induction servers as [|serv rest IH]; intros acc s.
  - exists [], (Ret acc). simpl. rewrite app_nil_r, St_eta. by repeat split.
  - simpl. unfold bind at 1. fold (server_address w serv).
    rewrite getMinecraftServerInfo_info.
    destruct (info_of (probe_result w (trace s) (server_address w serv))) as [info|e].
    + destruct (IH (acc +:+ singleMsg w (srv_name serv) info)
                  {| db := db s; trace := trace s ++ [EvProbe (server_address w serv)] |})
        as (addrs & o & Hrun & Hpre & Hall).
      exists (server_address w serv :: addrs), o. rewrite Hrun. simpl.
      rewrite <- app_assoc. split; [done|]. split.
      * by apply prefix_cons.
      * intros r Hr. by rewrite (Hall r Hr).
    + exists [server_address w serv], (Raise e). split; [done|]. split.
      * apply prefix_cons, prefix_nil.
      * discriminate.
Qed.

(** X12: a [/status] message never makes the dispatch raise: whatever
    the probes do, a reply text is produced; the table is not touched,
    no console client is run, and the servers probed are an initial
    segment of the configured ones, in their order. *)
Theorem status_dispatch_never_raises (w : World) (config : Config) (data : request) (s : St) :
  raw_message data = "/status" →
  ∃ m addrs,
    dispatch w config data s
    = (Ret (m, true), {| db := db s; trace := trace s ++ (EvProbe <$> addrs) |})
    ∧ addrs `prefix_of` (server_address w <$> server config).
Proof.
  intros Hraw. unfold dispatch. rewrite Hraw. cbn [String.eqb Ascii.eqb Bool.eqb].
  change (("/status" =? "/status")%string) with true. cbn iota.
  unfold bind, try_except, statusHandler.
  destruct (status_loop_probes w (server config)
              (at_ w (user_id data) +:+ " ====== 服务器状态一览 ======") s)
    as (addrs & o & Hrun & Hpre & _).
  rewrite Hrun. destruct o as [r|e]; by eexists _, addrs.
Qed.

Lemma status_dispatch_never_raises_witness :
  ∃ m addrs,
    dispatch world_down sample_config (private_message "/status" 3003) (fresh ∅)
    = (Ret (m, true),
       {| db := db (fresh ∅); trace := trace (fresh ∅) ++ (EvProbe <$> addrs) |})
    ∧ addrs `prefix_of` (server_address world_down <$> server sample_config).
Proof.
  apply (status_dispatch_never_raises world_down sample_config
           (private_message "/status" 3003) (fresh ∅)).
  reflexivity.
Defined.

Lemma status_loop_report (w : World) (servers : list server_entry) (acc : string) (s : St) :
  (∀ h serv, serv ∈ servers →
     ∃ info, info_of (probe_result w h (server_address w serv)) = Ret info) →
  ∃ infos,
    Forall2 (λ serv info,
               ∃ h, info_of (probe_result w h (server_address w serv)) = Ret info)
            servers infos
    ∧ status_loop w servers acc s
      = (Ret (acc +:+ concat_str
                        (zip_with (λ serv info, singleMsg w (srv_name serv) info)
                                  servers infos)),
         {| db := db s;
            trace := trace s ++ (EvProbe <$> (server_address w <$> servers)) |}).
Proof.
  revert acc s. induction servers as [|serv rest IH]; intros acc s Hok.
  - exists []. split; [constructor|]. simpl. unfold ret.
    by rewrite app_nil_r, St_eta, append_empty_r.
  - destruct (Hok (trace s) serv) as [info Hinfo]; [by left|].
    destruct (IH (acc +:+ singleMsg w (srv_name serv) info)
                {| db := db s; trace := trace s ++ [EvProbe (server_address w serv)] |})
      as (infos & Hall & Hrun).
    { intros h serv' Hin. apply Hok. by right. }
    exists (info :: infos). split.
    + constructor; [by exists (trace s)|done].
    + simpl. unfold bind at 1. fold (server_address w serv).
      rewrite getMinecraftServerInfo_info, Hinfo, Hrun. simpl.
      by rewrite <- app_assoc, append_assoc.
Qed.

(** The loop over a list of servers in two parts: the report of the
    first part is handed on to the second, an exception ends it. *)
Lemma status_loop_app (w : World) (l1 l2 : list server_entry) (acc : string) (s : St) :
  status_loop w (l1 ++ l2) acc s
  = match status_loop w l1 acc s with
    | (Ret r, s1) => status_loop w l2 r s1
    | (Raise e, s1) => (Raise e, s1)
    end.
Proof.
  revert acc s. induction l1 as [|serv l1 IH]; intros acc s; [done|].
  cbn [app status_loop]. unfold bind.
  destruct (getMinecraftServerInfo w _ s) as [[info|e] s1]; [apply IH|done].
Qed.

(** C7 (counterexample): no route leads to the configured hosts, so
    connecting raises a plain [OSError]: the prober raises instead of
    returning a result, the report is given up at the first server,
    the second server is not even probed, and the reply to [/status]
    is the single error text. *)
Lemma unrouted_host_aborts_report :
  getMinecraftServerInfo world_no_route "mc.example.org:25565" (fresh ∅)
  = (Raise (Exn OtherException "[Errno 113] No route to host"),
     {| db := ∅; trace := [EvProbe "mc.example.org:25565"] |})
  ∧ statusHandler world_no_route sample_config (PInt 3003) (fresh ∅)
    = (Raise (Exn OtherException "[Errno 113] No route to host"),
       {| db := ∅; trace := [EvProbe "mc.example.org:25565"] |})
  ∧ dispatch world_no_route sample_config (private_message "/status" 3003) (fresh ∅)
    = (Ret ("[CQ:at,qq=3003] 无法获取服务器信息：[Errno 113] No route to host", true),
       {| db := ∅; trace := [EvProbe "mc.example.org:25565"] |}).
Proof. repeat split. Qed.

(** C7 (amended): whenever a round trip fails with a timeout or a
    name-resolution error, the prober returns (it does not raise) the
    result with [online] false, [error] true and the message; and
    when that happens to one configured server while the round trips
    to the other configured servers are answered or fail in the same
    two ways, the report [statusHandler] returns is the header, the
    blocks of the servers configured before it, the line naming that
    server as unknown with the message, and the blocks of the servers
    configured after it, with one round trip made to every server. *)
Theorem unreachable_server_reported_unknown
    (w : World) (config : Config) (qid : pyval) (s : St)
    (pre : list server_entry) (serv : server_entry) (post : list server_entry)
    (e : exn) :
  server config = pre ++ serv :: post →
  (∀ h serv', serv' ∈ pre ++ post →
     ∃ info, info_of (probe_result w h (server_address w serv')) = Ret info) →
  probe_result w (trace s ++ (EvProbe <$> (server_address w <$> pre)))
    (server_address w serv) = ProbeRaise e →
  is_Timeout_or_gaierror (exn_class_of e) = true →
  (∀ addr s0 e0,
     probe_result w (trace s0) addr = ProbeRaise e0 →
     is_Timeout_or_gaierror (exn_class_of e0) = true →
     ∃ info,
       getMinecraftServerInfo w addr s0
       = (Ret info, {| db := db s0; trace := trace s0 ++ [EvProbe addr] |})
       ∧ online info = false ∧ error info = true ∧ msg info = exn_msg e0)
  ∧ ∃ infos_pre infos_post,
      Forall2 (λ serv' info,
                 ∃ h, info_of (probe_result w h (server_address w serv')) = Ret info)
              pre infos_pre
      ∧ Forall2 (λ serv' info,
                   ∃ h, info_of (probe_result w h (server_address w serv')) = Ret info)
                post infos_post
      ∧ statusHandler w config qid s
        = (Ret (((at_ w qid +:+ " ====== 服务器状态一览 ======")
                 +:+ concat_str
                       (zip_with (λ serv' info, singleMsg w (srv_name serv') info)
                                 pre infos_pre)
                 +:+ (nl +:+ "服务器名称：" +:+ py_str w (srv_name serv)
                      +:+ "            " +:+ nl +:+
                      "当前状态：未知（" +:+ exn_msg e +:+ "）"))
                +:+ concat_str
                      (zip_with (λ serv' info, singleMsg w (srv_name serv') info)
                                post infos_post)),
           {| db := db s;
              trace := trace s ++ (EvProbe <$> (server_address w <$> server config)) |}).
Proof.
  intros Hcfg Hothers Hprobe Hclass. split.
  { intros addr s0 e0 H0 Hc0. exists (offline_info true (exn_msg e0)).
    rewrite getMinecraftServerInfo_step, H0, Hc0. by repeat split. }
  destruct (status_loop_report w pre (at_ w qid +:+ " ====== 服务器状态一览 ======") s)
    as (infos_pre & Hpre & Hrun_pre).
  { intros h serv' Hin. apply Hothers, elem_of_app. by left. }
  set (r1 := (at_ w qid +:+ " ====== 服务器状态一览 ======")
             +:+ concat_str (zip_with (λ serv' info, singleMsg w (srv_name serv') info)
                               pre infos_pre)) in *.
  set (s1 := {| db := db s;
                trace := trace s ++ (EvProbe <$> (server_address w <$> pre)) |}) in *.
  set (line := nl +:+ "服务器名称：" +:+ py_str w (srv_name serv) +:+ "            "
               +:+ nl +:+ "当前状态：未知（" +:+ exn_msg e +:+ "）").
  destruct (status_loop_report w post (r1 +:+ line)
              {| db := db s1; trace := trace s1 ++ [EvProbe (server_address w serv)] |})
    as (infos_post & Hpost & Hrun_post).
  { intros h serv' Hin. apply Hothers, elem_of_app. by right. }
  exists infos_pre, infos_post. split; [done|]. split; [done|].
  unfold statusHandler. rewrite Hcfg, status_loop_app, Hrun_pre.
  cbn [status_loop]. unfold bind at 1. fold (server_address w serv).
  rewrite getMinecraftServerInfo_step.
  change (trace s1) with (trace s ++ (EvProbe <$> (server_address w <$> pre))) at 1.
  rewrite Hprobe, Hclass.
  change (singleMsg w (srv_name serv) (offline_info true (exn_msg e))) with line.
  rewrite Hrun_post. subst r1 s1 line. cbn [trace db]. f_equal; [f_equal|f_equal].
  - f_equal. apply append_assoc.
  - rewrite !fmap_app, !fmap_cons, <- !app_assoc. reflexivity.
Qed.

Lemma unreachable_server_reported_unknown_witness :
  (∀ addr s0 e0,
     probe_result world_ok (trace s0) addr = ProbeRaise e0 →
     is_Timeout_or_gaierror (exn_class_of e0) = true →
     ∃ info,
       getMinecraftServerInfo world_ok addr s0
       = (Ret info, {| db := db s0; trace := trace s0 ++ [EvProbe addr] |})
       ∧ online info = false ∧ error info = true ∧ msg info = exn_msg e0)
  ∧ ∃ infos_pre infos_post,
      Forall2 (λ serv' info,
                 ∃ h, info_of (probe_result world_ok h (server_address world_ok serv'))
                      = Ret info)
              [] infos_pre
      ∧ Forall2 (λ serv' info,
                   ∃ h, info_of (probe_result world_ok h (server_address world_ok serv'))
                        = Ret info)
                [ {| srv_name := PStr "creative"; srv_host := PStr "mc.example.org";
                     srv_port := PInt 25566 |} ] infos_post
      ∧ statusHandler world_ok sample_config (PInt 3003) (fresh ∅)
        = (Ret (((at_ world_ok (PInt 3003) +:+ " ====== 服务器状态一览 ======")
                 +:+ concat_str
                       (zip_with (λ serv' info, singleMsg world_ok (srv_name serv') info)
                                 [] infos_pre)
                 +:+ (nl +:+ "服务器名称：" +:+ py_str world_ok
                        (srv_name {| srv_name := PStr "survival";
                                     srv_host := PStr "mc.example.org";
                                     srv_port := PInt 25565 |})
                      +:+ "            " +:+ nl +:+
                      "当前状态：未知（" +:+ exn_msg (Exn TimeoutError "timed out") +:+ "）"))
                +:+ concat_str
                      (zip_with (λ serv' info, singleMsg world_ok (srv_name serv') info)
                                [ {| srv_name := PStr "creative";
                                     srv_host := PStr "mc.example.org";
                                     srv_port := PInt 25566 |} ] infos_post)),
           {| db := db (fresh ∅);
              trace := trace (fresh ∅)
                       ++ (EvProbe <$> (server_address world_ok <$> server sample_config)) |}).
Proof.
  apply (unreachable_server_reported_unknown world_ok sample_config (PInt 3003) (fresh ∅)
           []
           {| srv_name := PStr "survival"; srv_host := PStr "mc.example.org";
              srv_port := PInt 25565 |}
           [ {| srv_name := PStr "creative"; srv_host := PStr "mc.example.org";
                srv_port := PInt 25566 |} ]
           (Exn TimeoutError "timed out")).
  - reflexivity.
  - intros h serv' _. by eexists.
  - reflexivity.
  - reflexivity.
Defined.

(** X13: when every round trip to a configured server is answered or
    fails with a timeout or a name-resolution error, [statusHandler]
    returns the header followed by one block per configured server, in
    the order of the configuration, and makes exactly one round trip
    per server; the table is not touched. *)
Theorem statusHandler_full_report (w : World) (config : Config) (qid : pyval) (s : St) :
  (∀ h serv, serv ∈ server config →
     ∃ info, info_of (probe_result w h (server_address w serv)) = Ret info) →
  ∃ infos,
    Forall2 (λ serv info,
               ∃ h, info_of (probe_result w h (server_address w serv)) = Ret info)
            (server config) infos
    ∧ statusHandler w config qid s
      = (Ret ((at_ w qid +:+ " ====== 服务器状态一览 ======")
              +:+ concat_str
                    (zip_with (λ serv info, singleMsg w (srv_name serv) info)
                              (server config) infos)),
         {| db := db s;
            trace := trace s ++ (EvProbe <$> (server_address w <$> server config)) |}).
Proof. intros Hok. by apply status_loop_report. Qed.

Lemma statusHandler_full_report_witness :
  ∃ infos,
    Forall2 (λ serv info,
               ∃ h, info_of (probe_result world_ok h (server_address world_ok serv))
                    = Ret info)
            (server sample_config) infos
    ∧ statusHandler world_ok sample_config (PInt 3003) (fresh ∅)
      = (Ret ((at_ world_ok (PInt 3003) +:+ " ====== 服务器状态一览 ======")
              +:+ concat_str
                    (zip_with (λ serv info, singleMsg world_ok (srv_name serv) info)
                              (server sample_config) infos)),
         {| db := db (fresh ∅);
            trace := trace (fresh ∅)
                     ++ (EvProbe <$> (server_address world_ok <$> server sample_config)) |}).
Proof.
  apply (statusHandler_full_report world_ok sample_config (PInt 3003) (fresh ∅)).
  intros h serv _. by eexists.
Defined.

(** ** Routing of commands *)

Lemma prefix_admin_cases (raw : string) :
  String.prefix "/admin" raw = true →
  raw ≠ "/status" ∧ raw ≠ "/help" ∧ String.prefix "/bind" raw = false ∧ raw ≠ "/unbind".
Proof.
  intros Hp.
  destruct raw as [|c1 raw]; [discriminate|]. cbn [String.prefix] in Hp.
  destruct (Ascii.ascii_dec "/" c1) as [<-|]; [|discriminate].
  destruct raw as [|c2 r]; [discriminate|]. cbn [String.prefix] in Hp.
  destruct (Ascii.ascii_dec "a" c2) as [<-|]; [|discriminate].
  by repeat split.
Qed.

Lemma dispatch_admin (w : World) (config : Config) (data : request) (s : St) :
  String.prefix "/admin" (raw_message data) = true →
  dispatch w config data s
  = match admin_branch w config data s with
    | (Ret m, s') => (Ret (m, true), s')
    | (Raise e, s') => (Raise e, s')
    end.
Proof.
  intros Hp. destruct (prefix_admin_cases _ Hp) as (H1 & H2 & H3 & H4).
  unfold dispatch.
  destruct (String.eqb_spec (raw_message data) "/status"); [done|].
  destruct (String.eqb_spec (raw_message data) "/help"); [done|].
  rewrite H3.
  destruct (String.eqb_spec (raw_message data) "/unbind"); [done|].
  rewrite Hp. unfold bind. by destruct (admin_branch w config data s) as [[m|e] s'].
Qed.

Lemma dispatch_unbind (w : World) (config : Config) (data : request) (s : St) :
  raw_message data = "/unbind" →
  dispatch w config data s
  = match unbind_branch w data s with
    | (Ret m, s') => (Ret (m, true), s')
    | (Raise e, s') => (Raise e, s')
    end.
Proof.
  intros Hraw. unfold dispatch. rewrite Hraw.
  change (("/unbind" =? "/status")%string) with false.
  change (("/unbind" =? "/help")%string) with false.
  change (String.prefix "/bind" "/unbind") with false.
  change (("/unbind" =? "/unbind")%string) with true. cbn iota.
  unfold bind. by destruct (unbind_branch w data s) as [[m|e] s'].
Qed.

(** X14: a message that is none of the commands gets no reply and has
    no effect: the handler answers ["success"] and the state, trace
    included, is exactly the one before. *)
Theorem unknown_command_ignored (w : World) (config : Config) (data : request) (s : St) :
  raw_message data ≠ "/status" → raw_message data ≠ "/help" →
  String.prefix "/bind" (raw_message data) = false →
  raw_message data ≠ "/unbind" →
  String.prefix "/admin" (raw_message data) = false →
  mainHander w config data s = (Ret "success", s).
Proof.
  intros H1 H2 H3 H4 H5. unfold mainHander, bind, dispatch.
  destruct (String.eqb_spec (raw_message data) "/status"); [done|].
  destruct (String.eqb_spec (raw_message data) "/help"); [done|].
  rewrite H3.
  destruct (String.eqb_spec (raw_message data) "/unbind"); [done|].
  by rewrite H5.
Qed.

Lemma unknown_command_ignored_witness :
  mainHander world_ok sample_config (private_message "hello /bind Steve" 2002) (fresh ∅)
  = (Ret "success", fresh ∅).
Proof.
  apply (unknown_command_ignored world_ok sample_config
           (private_message "hello /bind Steve" 2002) (fresh ∅));
    first [discriminate | reflexivity].
Defined.

(** X15: a sender who is not in the configured admin list gets the
    refusal for every message that starts with [/admin], whatever
    follows: nothing is written to the table and no console client is
    run. *)
Theorem admin_command_needs_admin (w : World) (config : Config) (data : request) (s : St) :
  String.prefix "/admin" (raw_message data) = true →
  py_in (user_id data) (admin config) = false →
  dispatch w config data s
  = (Ret (at_ w (user_id data) +:+ " 你不在bot管理员列表内！", true), s).
Proof.
  intros Hp Hna. rewrite (dispatch_admin _ _ _ _ Hp).
  unfold admin_branch. by rewrite Hna.
Qed.

Lemma admin_command_needs_admin_witness :
  dispatch world_ok sample_config (private_message "/admin bind 3003 Steve" 2002) (fresh ∅)
  = (Ret (at_ world_ok (user_id (private_message "/admin bind 3003 Steve" 2002))
          +:+ " 你不在bot管理员列表内！", true), fresh ∅).
Proof.
  apply (admin_command_needs_admin world_ok sample_config
           (private_message "/admin bind 3003 Steve" 2002) (fresh ∅)); reflexivity.
Defined.

(** ** The checks of [/bind], in order *)

Lemma query_ban_sender (qq : pyval) (k : string) (s : St) :
  truthy qq = true → bind_param qq = Ret (Some k) →
  query_ban qq PNone s = (Ret (from_option ban false (db s !! k)), s).
Proof.
  intros Ht Hk. unfold query_ban. rewrite Ht. simpl.
  unfold try_except, bind, fetch, ret. rewrite Hk. simpl.
  destruct (db s !! k) as [r|]; simpl; [|done]. by destruct (ban r).
Qed.

Lemma query_count_sender (qq : pyval) (k : string) (s : St) :
  truthy qq = true → bind_param qq = Ret (Some k) →
  query_count qq PNone s
  = (Ret (match db s !! k with Some _ => 1 | None => 0 end), s).
Proof.
  intros Ht Hk. unfold query_count. rewrite Ht.
  unfold try_except, fetch. rewrite Hk. simpl. by destruct (db s !! k).
Qed.

Lemma count_mc_bound (name : string) (t : table) :
  negb (count_mc (Some name) t =? 0) = bool_decide (bound name t).
Proof.
  unfold count_mc. pose proof (bound_filter name t) as H.
  destruct (bool_decide (bound name t)).
  - apply Z.ltb_lt in H. apply negb_true_iff, Z.eqb_neq. lia.
  - apply Z.ltb_ge in H. apply negb_false_iff, Z.eqb_eq. lia.
Qed.

Lemma dispatch_bind_order (w : World) (config : Config) (data : request)
    (s : St) (cmd name k : string) :
  String.prefix "/bind" (raw_message data) = true →
  split_space (raw_message data) = [cmd; name] →
  truthy (user_id data) = true →
  bind_param (user_id data) = Ret (Some k) →
  name ≠ "" →
  dispatch w config data s
  = if from_option ban false (db s !! k)
    then (Ret (sender_banned w (user_id data), true), s)
    else if bool_decide (banned name (db s))
    then (Ret (name_banned w (user_id data), true), s)
    else if bool_decide (is_Some (db s !! k))
    then (Ret (already_bound w (user_id data), true), s)
    else if bool_decide (bound name (db s))
    then (Ret (name_taken w (user_id data) name, true), s)
    else match bindHandler w (raw_message data) (user_id data) s with
         | (Ret m, s') => (Ret (m, true), s')
         | (Raise e, s') => (Raise e, s')
         end.
Proof.
  intros Hp Hsplit Ht Hk Hne.
  rewrite (dispatch_bind _ _ _ _ Hp), (bind_branch_checks _ _ _ _ _ Hsplit).
  rewrite (query_ban_sender _ _ _ Ht Hk), (query_ban_name _ _ Hne),
    (query_count_sender _ _ _ Ht Hk), (query_count_name _ _ Hne), count_mc_bound.
  destruct (db s !! k) as [r|]; simpl.
  - destruct (ban r); [done|]. by destruct (bool_decide (banned name (db s))).
  - destruct (bool_decide (banned name (db s))); [done|].
    by destruct (bool_decide (bound name (db s))).
Qed.

(** X16: for a two-token [/bind] message from a truthy, storable
    sender id with a non-empty name, the refusals come in this order:
    the sender's row is banned, then some row of the name is banned,
    then the sender has a row, then the name is bound to somebody;
    each refusal leaves the state as it is, and only when none applies
    is [bindHandler] run. *)
Theorem bind_checks_in_order (w : World) (config : Config) (data : request)
    (s : St) (cmd name k : string) :
  String.prefix "/bind" (raw_message data) = true →
  split_space (raw_message data) = [cmd; name] →
  truthy (user_id data) = true →
  bind_param (user_id data) = Ret (Some k) →
  name ≠ "" →
  dispatch w config data s
  = if from_option ban false (db s !! k)
    then (Ret (sender_banned w (user_id data), true), s)
    else if bool_decide (banned name (db s))
    then (Ret (name_banned w (user_id data), true), s)
    else if bool_decide (is_Some (db s !! k))
    then (Ret (already_bound w (user_id data), true), s)
    else if bool_decide (bound name (db s))
    then (Ret (name_taken w (user_id data) name, true), s)
    else match bindHandler w (raw_message data) (user_id data) s with
         | (Ret m, s') => (Ret (m, true), s')
         | (Raise e, s') => (Raise e, s')
         end.
Proof. apply dispatch_bind_order. Qed.

Lemma bind_checks_in_order_witness :
  dispatch world_ok sample_config (private_message "/bind Steve" 3003)
    (fresh (<["2002" := Row (Some "Steve") false false]> ∅))
  = if from_option ban false
         (db (fresh (<["2002" := Row (Some "Steve") false false]> ∅)) !! "3003")
    then (Ret (sender_banned world_ok (user_id (private_message "/bind Steve" 3003)), true),
          fresh (<["2002" := Row (Some "Steve") false false]> ∅))
    else if bool_decide
              (banned "Steve" (db (fresh (<["2002" := Row (Some "Steve") false false]> ∅))))
    then (Ret (name_banned world_ok (user_id (private_message "/bind Steve" 3003)), true),
          fresh (<["2002" := Row (Some "Steve") false false]> ∅))
    else if bool_decide
              (is_Some (db (fresh (<["2002" := Row (Some "Steve") false false]> ∅))
                        !! "3003"))
    then (Ret (already_bound world_ok (user_id (private_message "/bind Steve" 3003)), true),
          fresh (<["2002" := Row (Some "Steve") false false]> ∅))
    else if bool_decide
              (bound "Steve" (db (fresh (<["2002" := Row (Some "Steve") false false]> ∅))))
    then (Ret (name_taken world_ok (user_id (private_message "/bind Steve" 3003)) "Steve",
               true),
          fresh (<["2002" := Row (Some "Steve") false false]> ∅))
    else match bindHandler world_ok (raw_message (private_message "/bind Steve" 3003))
                 (user_id (private_message "/bind Steve" 3003))
                 (fresh (<["2002" := Row (Some "Steve") false false]> ∅)) with
         | (Ret m, s') => (Ret (m, true), s')
         | (Raise e, s') => (Raise e, s')
         end.
Proof.
  apply (bind_checks_in_order world_ok sample_config (private_message "/bind Steve" 3003)
           (fresh (<["2002" := Row (Some "Steve") false false]> ∅)) "/bind" "Steve" "3003");
    first [reflexivity | discriminate].
Defined.

(** ** Outcomes of [/bind] *)

Lemma bindHandler_cases (w : World) (raw : string) (qid : pyval) (s : St)
    (cmd name : string) :
  split_space raw = [cmd; name] →
  bindHandler w raw qid s
  = if negb (isascii name)
    then (Ret (at_ w qid +:+ " 请输入正确的游戏名称！" +:+ name +:+ " 不是合法的游戏名！"), s)
    else
      let stdin := "!!awr add " +:+ name +:+ nl +:+ "/quit" +:+ nl in
      let s1 := {| db := db s; trace := trace s ++ [EvConsole stdin] |} in
      if contains "已加入白名单" (console_output w (trace s) stdin)
      then match add_bind qid (PStr name) s1 with
           | (Ret _, s2) => (Ret (bind_done w qid name), s2)
           | (Raise e, s2) => (Raise e, s2)
           end
      else (Ret (bind_done w qid name), s1).
Proof.
  intros Hsplit. unfold bindHandler. rewrite Hsplit. simpl.
  unfold bind, getitem. simpl. unfold ret at 1.
  destruct (isascii name); simpl; [|reflexivity].
  unfold try_except, bind, addWhitelist, run_console, bind, history, emit. simpl.
  destruct (contains _ _) eqn:Hc; simpl; [|reflexivity].
  match goal with
  | |- context [add_bind ?a ?b ?st] =>
      destruct (add_bind a b st) as [[b'|e] s2] eqn:Hadd
  end; [reflexivity|].
  assert (is_ServerConnectionError (exn_class_of e) = false) as ->; [|reflexivity].
  unfold add_bind, try_except, execute, sql_upsert in Hadd.
  destruct qid as [|z|x|f]; simpl in Hadd.
  - discriminate.
  - destruct ((- 2 ^ 63 <=? z) && (z <? 2 ^ 63)); simpl in Hadd.
    + destruct (db s !! pretty z); discriminate.
    + by injection Hadd as <- _.
  - destruct (db s !! x); discriminate.
  - discriminate.
Qed.

Lemma banned_bound (name : string) (t : table) : banned name t → bound name t.
Proof. intros (k & r & Hk & Hmc & _). by exists k, r. Qed.

(** X17: a [/bind <name>] from a sender without a row, for an ASCII
    name nobody is bound to, with a console client that confirms:
    the client is run once with the add command for the name, the
    table gains exactly the row (id, name, not admin, not banned), and
    the reply is the confirmation for that name. *)
Theorem bind_fresh_binds (w : World) (config : Config) (data : request)
    (s : St) (cmd name k : string) :
  String.prefix "/bind" (raw_message data) = true →
  split_space (raw_message data) = [cmd; name] →
  truthy (user_id data) = true →
  bind_param (user_id data) = Ret (Some k) →
  name ≠ "" → isascii name = true →
  db s !! k = None → ¬ bound name (db s) →
  contains "已加入白名单"
    (console_output w (trace s) ("!!awr add " +:+ name +:+ nl +:+ "/quit" +:+ nl)) = true →
  dispatch w config data s
  = (Ret (bind_done w (user_id data) name, true),
     {| db := <[k := Row (Some name) false false]> (db s);
        trace := trace s ++ [EvConsole ("!!awr add " +:+ name +:+ nl +:+ "/quit" +:+ nl)] |}).
Proof.
  intros Hp Hsplit Ht Hk Hne Hascii Hfresh Hnb Hok.
  rewrite (dispatch_bind_order w config data s cmd name k Hp Hsplit Ht Hk Hne).
  rewrite Hfresh. cbn [from_option].
  rewrite (bool_decide_eq_false_2 (banned name (db s)));
    [|by intros ?%banned_bound].
  rewrite (bool_decide_eq_false_2 (is_Some None)); [|by intros [? ?]].
  rewrite (bool_decide_eq_false_2 _ Hnb).
  rewrite (bindHandler_cases w _ _ s cmd name Hsplit), Hascii. cbn [negb]. cbv zeta.
  rewrite Hok.
  unfold add_bind, try_except, execute, sql_upsert. rewrite Hk. simpl.
  by rewrite Hfresh.
Qed.

Lemma bind_fresh_binds_witness :
  dispatch world_ok sample_config (private_message "/bind Steve123" 1001) (fresh ∅)
  = (Ret (bind_done world_ok (user_id (private_message "/bind Steve123" 1001)) "Steve123",
          true),
     {| db := <["1001" := Row (Some "Steve123") false false]> (db (fresh ∅));
        trace := trace (fresh ∅)
                 ++ [EvConsole ("!!awr add " +:+ "Steve123" +:+ nl +:+ "/quit" +:+ nl)] |}).
Proof.
  apply (bind_fresh_binds world_ok sample_config (private_message "/bind Steve123" 1001)
           (fresh ∅) "/bind" "Steve123" "1001");
    try first [reflexivity | discriminate].
  intros (k & r & Hk & _). simpl in Hk. by rewrite lookup_empty in Hk.
Defined.

(** X18: the same request with a name that is not ASCII is refused by
    [bindHandler] with the invalid-name reply: no console client is
    run and the state stays as it is. *)
Theorem bind_non_ascii_name_refused (w : World) (config : Config) (data : request)
    (s : St) (cmd name k : string) :
  String.prefix "/bind" (raw_message data) = true →
  split_space (raw_message data) = [cmd; name] →
  truthy (user_id data) = true →
  bind_param (user_id data) = Ret (Some k) →
  isascii name = false →
  db s !! k = None → ¬ bound name (db s) →
  dispatch w config data s
  = (Ret (at_ w (user_id data) +:+ " 请输入正确的游戏名称！" +:+ name +:+ " 不是合法的游戏名！",
          true), s).
Proof.
  intros Hp Hsplit Ht Hk Hascii Hfresh Hnb.
  assert (name ≠ "") as Hne by (intros ->; discriminate).
  rewrite (dispatch_bind_order w config data s cmd name k Hp Hsplit Ht Hk Hne).
  rewrite Hfresh. cbn [from_option].
  rewrite (bool_decide_eq_false_2 (banned name (db s)));
    [|by intros ?%banned_bound].
  rewrite (bool_decide_eq_false_2 (is_Some None)); [|by intros [? ?]].
  rewrite (bool_decide_eq_false_2 _ Hnb).
  by rewrite (bindHandler_cases w _ _ s cmd name Hsplit), Hascii.
Qed.

Lemma bind_non_ascii_name_refused_witness :
  dispatch world_ok sample_config (private_message "/bind 史蒂夫" 2002) (fresh ∅)
  = (Ret (at_ world_ok (user_id (private_message "/bind 史蒂夫" 2002))
          +:+ " 请输入正确的游戏名称！" +:+ "史蒂夫" +:+ " 不是合法的游戏名！", true),
     fresh ∅).
Proof.
  apply (bind_non_ascii_name_refused world_ok sample_config
           (private_message "/bind 史蒂夫" 2002) (fresh ∅) "/bind" "史蒂夫" "2002");
    try reflexivity.
  intros (k & r & Hk & _). simpl in Hk. by rewrite lookup_empty in Hk.
Defined.

(** ** Outcomes of [/unbind] *)

(** X19: [/unbind] from a sender who has no row is answered with the
    failure text; no console client is run and the state is unchanged. *)
Theorem unbind_without_row (w : World) (config : Config) (data : request)
    (s : St) (k : string) :
  raw_message data = "/unbind" →
  truthy (user_id data) = true →
  bind_param (user_id data) = Ret (Some k) →
  db s !! k = None →
  dispatch w config data s = (Ret (unbind_failed w (user_id data), true), s).
Proof.
  intros Hraw Ht Hk Hnone. rewrite (dispatch_unbind _ _ _ _ Hraw).
  unfold unbind_branch. unfold bind at 1.
  rewrite (remove_bind_id_eq _ _ _ _ Ht Hk), Hnone.
  rewrite (bool_decide_eq_false_2 (is_Some None)); [|by intros [? ?]].
  rewrite (delete_id _ _ Hnone). unfold ret. by rewrite St_eta.
Qed.

Lemma unbind_without_row_witness :
  dispatch world_ok sample_config (private_message "/unbind" 2002) (fresh ∅)
  = (Ret (unbind_failed world_ok (user_id (private_message "/unbind" 2002)), true), fresh ∅).
Proof.
  apply (unbind_without_row world_ok sample_config (private_message "/unbind" 2002)
           (fresh ∅) "2002"); reflexivity.
Defined.

(** X20: [/unbind] deletes the sender's row before it calls the
    console client: when the transcript lacks the removal marker the
    dispatch raises [ServerConnectionError], and the row is gone all
    the same. *)
Theorem unbind_deletes_before_console (w : World) (config : Config) (data : request)
    (s : St) (k : string) (r : row) :
  raw_message data = "/unbind" →
  truthy (user_id data) = true →
  bind_param (user_id data) = Ret (Some k) →
  db s !! k = Some r →
  contains "已从白名单移除"
    (console_output w (trace s)
       ("!!awr remove " +:+ py_str w (PFun "query_username") +:+ nl +:+ "/quit" +:+ nl))
  = false →
  dispatch w config data s
  = (Raise (Exn ServerConnectionError "移除失败，请重试！"),
     {| db := delete k (db s);
        trace := trace s
                 ++ [EvConsole ("!!awr remove " +:+ py_str w (PFun "query_username")
                                +:+ nl +:+ "/quit" +:+ nl)] |}).
Proof.
  intros Hraw Ht Hk Hrow Hout. rewrite (dispatch_unbind _ _ _ _ Hraw).
  unfold unbind_branch. unfold bind at 1.
  rewrite (remove_bind_id_eq _ _ _ _ Ht Hk), Hrow.
  rewrite (bool_decide_eq_true_2 _ (mk_is_Some _ _ eq_refl)).
  unfold bind at 1. unfold removeWhitelist, run_console, bind, history, emit.
  simpl. simpl in Hout. by rewrite Hout.
Qed.

Lemma unbind_deletes_before_console_witness :
  dispatch world_down sample_config (private_message "/unbind" 2002)
    (fresh (<["2002" := Row (Some "Steve") false false]> ∅))
  = (Raise (Exn ServerConnectionError "移除失败，请重试！"),
     {| db := delete "2002" (db (fresh (<["2002" := Row (Some "Steve") false false]> ∅)));
        trace := trace (fresh (<["2002" := Row (Some "Steve") false false]> ∅))
                 ++ [EvConsole ("!!awr remove " +:+ py_str world_down (PFun "query_username")
                                +:+ nl +:+ "/quit" +:+ nl)] |}).
Proof.
  apply (unbind_deletes_before_console world_down sample_config
           (private_message "/unbind" 2002)
           (fresh (<["2002" := Row (Some "Steve") false false]> ∅)) "2002"
           (Row (Some "Steve") false false)); reflexivity.
Defined.

(** ** Admin commands *)

(** Unfold the monad until the next test or call shows. *)
Ltac run_monad :=
  repeat first
    [ progress simpl
    | progress unfold bind, ret, raise, getitem, try_except, history, emit,
        execute, fetch ].

(** X21: [/admin bind <qq> <name>] from a configured admin runs no ban
    or duplicate check: when the console client confirms, the row of
    the key typed as [<qq>] gets the name and keeps the flags it had,
    a ban included; when the transcript lacks the marker the dispatch
    raises [ServerConnectionError] and the table is unchanged. *)
Theorem admin_bind_forces (w : World) (config : Config) (data : request)
    (s : St) (c0 q name : string) :
  String.prefix "/admin" (raw_message data) = true →
  split_space (raw_message data) = [c0; "bind"; q; name] →
  py_in (user_id data) (admin config) = true →
  str_isdigit w q = true → isascii name = true →
  dispatch w config data s
  = if contains "已加入白名单"
         (console_output w (trace s) ("!!awr add " +:+ name +:+ nl +:+ "/quit" +:+ nl))
    then (Ret (at_ w (user_id data) +:+ " 已经为 " +:+ q +:+ " 添加了用户名 " +:+ name
               +:+ " 的绑定！", true),
          {| db := <[q := upserted name (db s !! q)]> (db s);
             trace := trace s
                      ++ [EvConsole ("!!awr add " +:+ name +:+ nl +:+ "/quit" +:+ nl)] |})
    else (Raise (Exn ServerConnectionError "添加失败，请重试！"),
          {| db := db s;
             trace := trace s
                      ++ [EvConsole ("!!awr add " +:+ name +:+ nl +:+ "/quit" +:+ nl)] |}).
Proof.
  intros Hp Hsplit Hadm Hdigit Hascii. rewrite (dispatch_admin _ _ _ _ Hp).
  unfold admin_branch. rewrite Hsplit, Hadm. run_monad.
  rewrite Hdigit. run_monad. rewrite Hascii. run_monad.
  unfold addWhitelist, run_console. run_monad.
  destruct (contains _ _); run_monad; [|reflexivity].
  unfold force_edit_database, sql_upsert. run_monad.
  by destruct (db s !! q).
Qed.

Lemma admin_bind_forces_witness :
  dispatch world_ok sample_config (private_message "/admin bind 2002 Steve" 1001)
    (fresh (<["2002" := Row (Some "Alex") false true]> ∅))
  = if contains "已加入白名单"
         (console_output world_ok
            (trace (fresh (<["2002" := Row (Some "Alex") false true]> ∅)))
            ("!!awr add " +:+ "Steve" +:+ nl +:+ "/quit" +:+ nl))
    then (Ret (at_ world_ok (user_id (private_message "/admin bind 2002 Steve" 1001))
               +:+ " 已经为 " +:+ "2002" +:+ " 添加了用户名 " +:+ "Steve" +:+ " 的绑定！", true),
          {| db := <["2002" := upserted "Steve"
                                 (db (fresh (<["2002" := Row (Some "Alex") false true]> ∅))
                                  !! "2002")]>
                     (db (fresh (<["2002" := Row (Some "Alex") false true]> ∅)));
             trace := trace (fresh (<["2002" := Row (Some "Alex") false true]> ∅))
                      ++ [EvConsole ("!!awr add " +:+ "Steve" +:+ nl +:+ "/quit" +:+ nl)] |})
    else (Raise (Exn ServerConnectionError "添加失败，请重试！"),
          {| db := db (fresh (<["2002" := Row (Some "Alex") false true]> ∅));
             trace := trace (fresh (<["2002" := Row (Some "Alex") false true]> ∅))
                      ++ [EvConsole ("!!awr add " +:+ "Steve" +:+ nl +:+ "/quit" +:+ nl)] |}).
Proof.
  apply (admin_bind_forces world_ok sample_config
           (private_message "/admin bind 2002 Steve" 1001)
           (fresh (<["2002" := Row (Some "Alex") false true]> ∅)) "/admin" "2002" "Steve");
    reflexivity.
Defined.

(** X22: [/admin unbind <name>] from a configured admin never yields a
    reply: when the console client confirms, every row bound to the
    name is deleted and building the reply raises [IndexError];
    otherwise [ServerConnectionError] is raised and the table is
    unchanged. *)
Theorem admin_unbind_outcome (w : World) (config : Config) (data : request)
    (s : St) (c0 name : string) :
  String.prefix "/admin" (raw_message data) = true →
  split_space (raw_message data) = [c0; "unbind"; name] →
  py_in (user_id data) (admin config) = true →
  name ≠ "" → isascii name = true →
  dispatch w config data s
  = if contains "已从白名单移除"
         (console_output w (trace s) ("!!awr remove " +:+ name +:+ nl +:+ "/quit" +:+ nl))
    then (Raise (Exn IndexError "list index out of range"),
          {| db := filter (λ kr, ¬ mc_is name kr) (db s);
             trace := trace s
                      ++ [EvConsole ("!!awr remove " +:+ name +:+ nl +:+ "/quit" +:+ nl)] |})
    else (Raise (Exn ServerConnectionError "移除失败，请重试！"),
          {| db := db s;
             trace := trace s
                      ++ [EvConsole ("!!awr remove " +:+ name +:+ nl +:+ "/quit" +:+ nl)] |}).
Proof.
  intros Hp Hsplit Hadm Hne Hascii. rewrite (dispatch_admin _ _ _ _ Hp).
  pose proof (truthy_name _ Hne) as Ht.
  unfold admin_branch. rewrite Hsplit, Hadm. run_monad.
  rewrite Hascii. run_monad.
  unfold removeWhitelist, run_console. run_monad.
  destruct (contains _ _); run_monad; [|reflexivity].
  unfold remove_bind. rewrite Ht. unfold sql_delete_mc. run_monad. reflexivity.
Qed.

Lemma admin_unbind_outcome_witness :
  dispatch world_ok sample_config (private_message "/admin unbind Steve" 1001)
    (fresh (<["2002" := Row (Some "Steve") false false]> ∅))
  = if contains "已从白名单移除"
         (console_output world_ok
            (trace (fresh (<["2002" := Row (Some "Steve") false false]> ∅)))
            ("!!awr remove " +:+ "Steve" +:+ nl +:+ "/quit" +:+ nl))
    then (Raise (Exn IndexError "list index out of range"),
          {| db := filter (λ kr, ¬ mc_is "Steve" kr)
                     (db (fresh (<["2002" := Row (Some "Steve") false false]> ∅)));
             trace := trace (fresh (<["2002" := Row (Some "Steve") false false]> ∅))
                      ++ [EvConsole ("!!awr remove " +:+ "Steve" +:+ nl +:+ "/quit" +:+ nl)] |})
    else (Raise (Exn ServerConnectionError "移除失败，请重试！"),
          {| db := db (fresh (<["2002" := Row (Some "Steve") false false]> ∅));
             trace := trace (fresh (<["2002" := Row (Some "Steve") false false]> ∅))
                      ++ [EvConsole ("!!awr remove " +:+ "Steve" +:+ nl +:+ "/quit" +:+ nl)] |}).
Proof.
  apply (admin_unbind_outcome world_ok sample_config
           (private_message "/admin unbind Steve" 1001)
           (fresh (<["2002" := Row (Some "Steve") false false]> ∅)) "/admin" "Steve");
    first [reflexivity | discriminate].
Defined.

(** X23: [/admin ban <name>] from a configured admin, for whatever
    admin list and table: when the console client confirms, exactly
    the rows bound to the name get the ban flag, and building the
    reply raises [IndexError]; otherwise [ServerConnectionError] is
    raised and no flag is set. *)
Theorem admin_ban_outcome (w : World) (config : Config) (data : request)
    (s : St) (c0 name : string) :
  String.prefix "/admin" (raw_message data) = true →
  split_space (raw_message data) = [c0; "ban"; name] →
  py_in (user_id data) (admin config) = true →
  name ≠ "" → isascii name = true →
  dispatch w config data s
  = if contains "已从白名单移除"
         (console_output w (trace s) ("!!awr remove " +:+ name +:+ nl +:+ "/quit" +:+ nl))
    then (Raise (Exn IndexError "list index out of range"),
          {| db := ban_if_bound name <$> db s;
             trace := trace s
                      ++ [EvConsole ("!!awr remove " +:+ name +:+ nl +:+ "/quit" +:+ nl)] |})
    else (Raise (Exn ServerConnectionError "移除失败，请重试！"),
          {| db := db s;
             trace := trace s
                      ++ [EvConsole ("!!awr remove " +:+ name +:+ nl +:+ "/quit" +:+ nl)] |}).
Proof.
  intros Hp Hsplit Hadm Hne Hascii. rewrite (dispatch_admin _ _ _ _ Hp).
  pose proof (truthy_name _ Hne) as Ht.
  unfold admin_branch. rewrite Hsplit, Hadm. run_monad.
  rewrite Hascii. run_monad.
  unfold removeWhitelist, run_console. run_monad.
  destruct (contains _ _); run_monad; [|reflexivity].
  unfold ban_bind. rewrite Ht. unfold sql_ban_mc. run_monad.
  by rewrite sql_ban_mc_table.
Qed.

Lemma admin_ban_outcome_witness :
  dispatch world_ok sample_config (private_message "/admin ban Steve" 1001)
    (fresh (<["2002" := Row (Some "Steve") false false]> ∅))
  = if contains "已从白名单移除"
         (console_output world_ok
            (trace (fresh (<["2002" := Row (Some "Steve") false false]> ∅)))
            ("!!awr remove " +:+ "Steve" +:+ nl +:+ "/quit" +:+ nl))
    then (Raise (Exn IndexError "list index out of range"),
          {| db := ban_if_bound "Steve"
                     <$> db (fresh (<["2002" := Row (Some "Steve") false false]> ∅));
             trace := trace (fresh (<["2002" := Row (Some "Steve") false false]> ∅))
                      ++ [EvConsole ("!!awr remove " +:+ "Steve" +:+ nl +:+ "/quit" +:+ nl)] |})
    else (Raise (Exn ServerConnectionError "移除失败，请重试！"),
          {| db := db (fresh (<["2002" := Row (Some "Steve") false false]> ∅));
             trace := trace (fresh (<["2002" := Row (Some "Steve") false false]> ∅))
                      ++ [EvConsole ("!!awr remove " +:+ "Steve" +:+ nl +:+ "/quit" +:+ nl)] |}).
Proof.
  apply (admin_ban_outcome world_ok sample_config
           (private_message "/admin ban Steve" 1001)
           (fresh (<["2002" := Row (Some "Steve") false false]> ∅)) "/admin" "Steve");
    first [reflexivity | discriminate].
Defined.

(** X24: an admin message whose second token is none of [bind],
    [unbind] and [ban] is answered with the message itself: no branch
    assigns a reply, and nothing else happens. *)
Theorem admin_unknown_subcommand_echoed (w : World) (config : Config) (data : request)
    (s : St) (c0 c1 : string) (rest : list string) :
  String.prefix "/admin" (raw_message data) = true →
  split_space (raw_message data) = c0 :: c1 :: rest →
  py_in (user_id data) (admin config) = true →
  c1 ≠ "bind" → c1 ≠ "unbind" → c1 ≠ "ban" →
  dispatch w config data s = (Ret (raw_message data, true), s).
Proof.
  intros Hp Hsplit Hadm H1 H2 H3. rewrite (dispatch_admin _ _ _ _ Hp).
  unfold admin_branch. rewrite Hsplit, Hadm. run_monad.
  destruct (String.eqb_spec c1 "bind"); [done|].
  destruct (String.eqb_spec c1 "unbind"); [done|].
  destruct (String.eqb_spec c1 "ban"); [done|]. reflexivity.
Qed.

Lemma admin_unknown_subcommand_echoed_witness :
  dispatch world_ok sample_config (private_message "/admin pardon Steve" 1001) (fresh ∅)
  = (Ret (raw_message (private_message "/admin pardon Steve" 1001), true), fresh ∅).
Proof.
  apply (admin_unknown_subcommand_echoed world_ok sample_config
           (private_message "/admin pardon Steve" 1001) (fresh ∅)
           "/admin" "pardon" ["Steve"]);
    first [reflexivity | discriminate].
Defined.

(** ** What a request can do to the table *)

Lemma quiet_ret {A} (a : A) : quiet (ret a).
Proof. by intros s. Qed.

Lemma quiet_raise {A} (e : exn) : quiet (raise (A := A) e).
Proof. by intros s. Qed.

Lemma quiet_bind {A B} (m : M A) (k : A → M B) :
  quiet m → (∀ a, quiet (k a)) → quiet (bind m k).
Proof.
  intros Hm Hk s. unfold bind. specialize (Hm s).
  destruct (m s) as [[a|e] s1]; simpl in *; [|done].
  by rewrite (Hk a s1).
Qed.

Lemma quiet_try_except {A} (m : M A) (c : exn_class → bool) (h : exn → M A) :
  quiet m → (∀ e, quiet (h e)) → quiet (try_except m c h).
Proof.
  intros Hm Hh s. unfold try_except. specialize (Hm s).
  destruct (m s) as [[a|e] s1]; simpl in *; [done|].
  destruct (c (exn_class_of e)); [|done]. by rewrite (Hh e s1).
Qed.

Lemma quiet_getitem (l : list string) (i : nat) : quiet (getitem l i).
Proof. intros s. unfold getitem. by destruct (l !! i). Qed.

Lemma quiet_query_ban (qq mc_ : pyval) : quiet (query_ban qq mc_).
Proof. intros s. by destruct (query_ban_pure qq mc_ s) as [o ->]. Qed.

Lemma quiet_query_count (qq mc_ : pyval) : quiet (query_count qq mc_).
Proof. intros s. by destruct (query_count_pure qq mc_ s) as [o ->]. Qed.

Lemma quiet_addWhitelist (w : World) (u : pyval) : quiet (addWhitelist w u).
Proof.
  intros s. unfold addWhitelist, run_console, bind, history, emit. simpl.
  by destruct (negb (contains _ _)).
Qed.

Lemma quiet_removeWhitelist (w : World) (u : pyval) : quiet (removeWhitelist w u).
Proof.
  intros s. unfold removeWhitelist, run_console, bind, history, emit. simpl.
  by destruct (negb (contains _ _)).
Qed.

Lemma quiet_httpx_post (w : World) (url : string) (params : list (string * pyval)) :
  quiet (httpx_post w url params).
Proof.
  intros s. unfold httpx_post, bind, history, emit. simpl.
  by destruct (post_error w _ _ _).
Qed.

Lemma quiet_statusHandler (w : World) (config : Config) (qid : pyval) :
  quiet (statusHandler w config qid).
Proof.
  intros s. unfold statusHandler.
  by destruct (status_loop_probes w (server config)
                 (at_ w qid +:+ " ====== 服务器状态一览 ======") s)
    as (addrs & o & -> & _).
Qed.

Create HintDb quiet.
#[local] Hint Resolve quiet_ret quiet_raise quiet_getitem quiet_query_ban
  quiet_query_count quiet_addWhitelist quiet_removeWhitelist quiet_httpx_post
  quiet_statusHandler : quiet.

(** Take a quiet computation apart along its binds and tests. *)
Ltac quiet_tac :=
  cbv beta zeta;
  lazymatch goal with
  | |- quiet (bind _ _) => apply quiet_bind; [quiet_tac | intros ?; quiet_tac]
  | |- quiet (try_except _ _ _) =>
      apply quiet_try_except; [quiet_tac | intros ?; quiet_tac]
  | |- quiet (if ?b then _ else _) => destruct b; quiet_tac
  | |- quiet (match ?x with _ => _ end) => destruct x; quiet_tac
  | |- _ => solve [auto with quiet]
  end.

Lemma table_effect_refl (t : table) : table_effect t t.
Proof. by apply effect_delete. Qed.

Lemma quiet_shrinks {A} (m : M A) : quiet m → shrinks m.
Proof. intros H s. by rewrite (H s). Qed.

Lemma shrinks_bind {A B} (m : M A) (k : A → M B) :
  shrinks m → (∀ a, shrinks (k a)) → shrinks (bind m k).
Proof.
  intros Hm Hk s. unfold bind. specialize (Hm s).
  destruct (m s) as [[a|e] s1]; simpl in *; [|done].
  by etrans; [apply (Hk a s1)|].
Qed.

Lemma shrinks_remove_bind (qq mc_ : pyval) : shrinks (remove_bind qq mc_).
Proof.
  intros s. unfold remove_bind.
  destruct (negb (truthy qq) && negb (truthy mc_)); [done|].
  unfold try_except, bind, execute.
  destruct (truthy qq).
  - unfold sql_delete_qq. destruct (bind_param qq) as [[k|]|e]; simpl.
    + destruct (db s !! k); simpl; [apply delete_subseteq|done].
    + done.
    + by destruct (is_sqlite3_Error (exn_class_of e)).
  - destruct (truthy mc_); simpl; [|done].
    unfold sql_delete_mc. destruct (bind_param mc_) as [[n|]|e]; simpl.
    + apply map_filter_subseteq.
    + done.
    + by destruct (is_sqlite3_Error (exn_class_of e)).
Qed.

Lemma shrinks_effect {A} (m : M A) : shrinks m → has_effect m.
Proof. intros H s. apply effect_delete, H. Qed.

Lemma quiet_effect {A} (m : M A) : quiet m → has_effect m.
Proof. intros H. by apply shrinks_effect, quiet_shrinks. Qed.

Lemma effect_bind_l {A B} (m : M A) (k : A → M B) :
  quiet m → (∀ a, has_effect (k a)) → has_effect (bind m k).
Proof.
  intros Hm Hk s. unfold bind. specialize (Hm s).
  destruct (m s) as [[a|e] s1]; simpl in *.
  - rewrite <- Hm. apply Hk.
  - rewrite Hm. apply table_effect_refl.
Qed.

Lemma effect_bind_r {A B} (m : M A) (k : A → M B) :
  has_effect m → (∀ a, quiet (k a)) → has_effect (bind m k).
Proof.
  intros Hm Hk s. unfold bind. specialize (Hm s).
  destruct (m s) as [[a|e] s1]; simpl in *; [|done].
  by rewrite (Hk a s1).
Qed.

Lemma effect_try_except {A} (m : M A) (c : exn_class → bool) (h : exn → M A) :
  has_effect m → (∀ e, quiet (h e)) → has_effect (try_except m c h).
Proof.
  intros Hm Hh s. unfold try_except. specialize (Hm s).
  destruct (m s) as [[a|e] s1]; simpl in *; [done|].
  destruct (c (exn_class_of e)); [|done]. by rewrite (Hh e s1).
Qed.

Lemma effect_upsert_stmt {A} (qq : pyval) (name : string) (a : A) :
  has_effect (execute (λ t, match sql_upsert qq (PStr name) t with
                            | Ret t' => Ret (t', a)
                            | Raise e => Raise e
                            end)).
Proof.
  intros s. unfold execute, sql_upsert.
  destruct (bind_param qq) as [[k|]|e]; simpl; try apply table_effect_refl.
  pose proof (effect_upsert (db s) k name) as H.
  by destruct (db s !! k).
Qed.

Lemma effect_add_bind (qq : pyval) (name : string) : has_effect (add_bind qq (PStr name)).
Proof.
  apply effect_try_except; [apply effect_upsert_stmt|]. intros e. apply quiet_ret.
Qed.

Lemma effect_force_edit_database (qq : pyval) (name : string) :
  has_effect (force_edit_database qq (PStr name)).
Proof.
  apply effect_try_except; [apply effect_upsert_stmt|]. intros e. apply quiet_ret.
Qed.

Lemma effect_ban_bind_name (name : string) : has_effect (ban_bind PNone (PStr name)).
Proof.
  intros s. unfold ban_bind, try_except, bind, execute. simpl.
  destruct (negb (String.eqb name "")); simpl; [|apply table_effect_refl].
  rewrite sql_ban_mc_table. apply effect_ban.
Qed.

Lemma effect_remove_bind (qq mc_ : pyval) : has_effect (remove_bind qq mc_).
Proof. apply shrinks_effect, shrinks_remove_bind. Qed.

(** Take a computation apart until the one call that writes. *)
Ltac effect_tac :=
  cbv beta zeta;
  lazymatch goal with
  | |- has_effect (if ?b then _ else _) => destruct b; effect_tac
  | |- has_effect (match ?x with _ => _ end) => destruct x; effect_tac
  | |- has_effect (bind _ _) =>
      first [ apply effect_bind_l; [solve [quiet_tac] | intros ?; effect_tac]
            | apply effect_bind_r; [effect_tac | intros ?; solve [quiet_tac]] ]
  | |- has_effect (try_except _ _ _) =>
      apply effect_try_except; [effect_tac | intros ?; solve [quiet_tac]]
  | |- _ =>
      first [ apply effect_add_bind | apply effect_force_edit_database
            | apply effect_ban_bind_name | apply effect_remove_bind
            | apply quiet_effect; solve [quiet_tac] ]
  end.

Lemma effect_bindHandler (w : World) (raw : string) (qid : pyval) :
  has_effect (bindHandler w raw qid).
Proof. unfold bindHandler. effect_tac. Qed.

Lemma effect_bind_branch (w : World) (data : request) : has_effect (bind_branch w data).
Proof.
  unfold bind_branch. cbv zeta.
  destruct (negb _); [apply quiet_effect, quiet_ret|].
  repeat (apply effect_bind_l; [solve [quiet_tac]|intros ?; cbv beta];
          match goal with
          | |- has_effect (if ?b then _ else _) =>
              destruct b; [apply quiet_effect; solve [quiet_tac]|]
          | |- _ => idtac
          end).
  apply effect_bindHandler.
Qed.

Lemma effect_unbind_branch (w : World) (data : request) : has_effect (unbind_branch w data).
Proof.
  apply shrinks_effect. unfold unbind_branch. cbv zeta.
  apply shrinks_bind; [apply shrinks_remove_bind|]. intros [|].
  - apply shrinks_bind; [apply quiet_shrinks, quiet_removeWhitelist|]. intros _.
    apply shrinks_bind; [apply shrinks_remove_bind|]. intros _.
    apply quiet_shrinks, quiet_ret.
  - apply quiet_shrinks, quiet_ret.
Qed.

Lemma effect_admin_branch (w : World) (config : Config) (data : request) :
  has_effect (admin_branch w config data).
Proof. unfold admin_branch. effect_tac. Qed.

Lemma effect_dispatch (w : World) (config : Config) (data : request) :
  has_effect (dispatch w config data).
Proof.
  unfold dispatch. cbv zeta.
  destruct (String.eqb _ "/status"); [apply quiet_effect; quiet_tac|].
  destruct (String.eqb _ "/help"); [apply quiet_effect; quiet_tac|].
  destruct (String.prefix "/bind" _).
  { apply effect_bind_r; [apply effect_bind_branch|]. intros ?. apply quiet_ret. }
  destruct (String.eqb _ "/unbind").
  { apply effect_bind_r; [apply effect_unbind_branch|]. intros ?. apply quiet_ret. }
  destruct (String.prefix "/admin" _).
  { apply effect_bind_r; [apply effect_admin_branch|]. intros ?. apply quiet_ret. }
  apply quiet_effect, quiet_ret.
Qed.

Lemma effect_mainHander (w : World) (config : Config) (data : request) :
  has_effect (mainHander w config data).
Proof.
  unfold mainHander. cbv zeta.
  apply effect_bind_r; [apply effect_dispatch|].
  intros [m [|]]; quiet_tac.
Qed.

(** X25: whatever the request, the world and the state, one call of
    the HTTP handler does at most one of three things to the table:
    it deletes rows, it sets the username of the row of one key
    (keeping that row's flags, or creating it unbanned and not admin),
    or it sets the ban flag of the rows bound to one name. *)
Theorem request_table_effect (w : World) (config : Config) (data : request) (s : St) :
  table_effect (db s) (db (mainHander w config data s).2).
Proof. apply effect_mainHander. Qed.

(** X26: no request grants the admin flag, lifts the ban of a row it
    keeps, or creates a row that is banned, admin or without username:
    a row present after the request either was there before with the
    same admin flag and with its ban still set if it was set, or is
    new, bound, not admin and not banned. *)
Theorem request_keeps_flags (w : World) (config : Config) (data : request)
    (s : St) (k : string) (r' : row) :
  db (mainHander w config data s).2 !! k = Some r' →
  match db s !! k with
  | Some r => is_admin r' = is_admin r ∧ (ban r = true → ban r' = true)
  | None => is_admin r' = false ∧ ban r' = false ∧ is_Some (mc r')
  end.
Proof.
  intros Hk. destruct (effect_mainHander w config data s) as [t' Hsub|k0 name|name].
  - by rewrite (lookup_weaken _ _ _ _ Hk Hsub).
  - destruct (decide (k0 = k)) as [->|Hne].
    + rewrite lookup_insert_eq in Hk. injection Hk as <-.
      by destruct (db s !! k).
    + rewrite lookup_insert_ne in Hk by done. by rewrite Hk.
  - rewrite lookup_fmap in Hk. destruct (db s !! k) as [r|]; [|done].
    simpl in Hk. injection Hk as <-. unfold ban_if_bound. by case_decide.
Qed.

Lemma request_keeps_flags_witness :
  match db (fresh (<["2002" := Row (Some "Steve") false true]> ∅)) !! "2002" with
  | Some r =>
      is_admin (Row (Some "Alex") false true) = is_admin r
      ∧ (ban r = true → ban (Row (Some "Alex") false true) = true)
  | None =>
      is_admin (Row (Some "Alex") false true) = false
      ∧ ban (Row (Some "Alex") false true) = false
      ∧ is_Some (mc (Row (Some "Alex") false true))
  end.
Proof.
  apply (request_keeps_flags world_ok sample_config
           (private_message "/admin bind 2002 Alex" 1001)
           (fresh (<["2002" := Row (Some "Steve") false true]> ∅)) "2002"
           (Row (Some "Alex") false true)).
  vm_compute. reflexivity.
Defined.

(** ** What [/bind] can add *)

Lemma quiet_add_bind_unstorable (qq : pyval) (name : string) :
  storable qq = false → quiet (add_bind qq (PStr name)).
Proof.
  intros Hq s. unfold storable in Hq.
  unfold add_bind, try_except, execute, sql_upsert.
  destruct (bind_param qq) as [[k|]|e]; simpl; [done|done|].
  by destruct (is_sqlite3_Error (exn_class_of e)).
Qed.

Lemma quiet_bind_branch_unstorable (w : World) (data : request) :
  storable (user_id data) = false → quiet (bind_branch w data).
Proof.
  intros Hq. pose proof (quiet_add_bind_unstorable (user_id data)) as Hadd.
  unfold bind_branch, bindHandler.
  assert (∀ name, quiet (add_bind (user_id data) (PStr name))) as Hadd' by auto.
  quiet_tac.
Qed.

Lemma split_two (l : list string) :
  length l = 2%nat → ∃ cmd name, l = [cmd; name].
Proof. destruct l as [|a [|b [|c l]]]; try discriminate. by exists a, b. Qed.

(** A [/bind] message leaves the table as it is or adds one row, for
    an id that had none and a name nobody was bound to. *)
Lemma dispatch_bind_table (w : World) (config : Config) (data : request) (s : St) :
  String.prefix "/bind" (raw_message data) = true →
  db (dispatch w config data s).2 = db s
  ∨ ∃ k name, db s !! k = None ∧ ¬ bound name (db s)
              ∧ db (dispatch w config data s).2 = <[k := Row (Some name) false false]> (db s).
Proof.
  intros Hp.
  destruct (decide (length (split_space (raw_message data)) = 2%nat)) as [Hlen|Hlen];
    [|left; by rewrite (dispatch_bind_wrong_arity _ _ _ _ Hp Hlen)].
  destruct (split_two _ Hlen) as (cmd & name & Hsplit).
  destruct (storable (user_id data)) eqn:Hst.
  2:{ left. rewrite (dispatch_bind _ _ _ _ Hp).
      pose proof (quiet_bind_branch_unstorable w data Hst s) as Hq.
      by destruct (bind_branch w data s) as [[m|e] s']. }
  unfold storable in Hst.
  destruct (bind_param (user_id data)) as [[k|]|e0] eqn:Hk; try discriminate.
  destruct (truthy (user_id data)) eqn:Ht.
  2:{ left. rewrite (dispatch_bind _ _ _ _ Hp), (bind_branch_checks _ _ _ _ _ Hsplit).
      by destruct (query_ban_falsy_sender _ s Ht) as [e ->]. }
  destruct (decide (name = "")) as [->|Hne].
  { left. rewrite (dispatch_bind _ _ _ _ Hp), (bind_branch_checks _ _ _ _ _ Hsplit).
    rewrite (query_ban_sender _ _ _ Ht Hk).
    destruct (query_ban_empty_name s) as [e ->].
    by destruct (from_option ban false (db s !! k)). }
  rewrite (dispatch_bind_order w config data s cmd name k Hp Hsplit Ht Hk Hne).
  destruct (from_option ban false (db s !! k)); [by left|].
  destruct (bool_decide (banned name (db s))); [by left|].
  destruct (bool_decide (is_Some (db s !! k))) eqn:Hrow; [by left|].
  destruct (bool_decide (bound name (db s))) eqn:Hb; [by left|].
  apply bool_decide_eq_false in Hrow, Hb.
  assert (db s !! k = None) as Hfresh.
  { destruct (db s !! k) eqn:E; [|done]. by destruct Hrow. }
  rewrite (bindHandler_cases w _ _ s cmd name Hsplit).
  destruct (negb (isascii name)); [by left|]. cbv zeta.
  destruct (contains _ _); [|by left].
  right. exists k, name. split; [done|]. split; [done|].
  unfold add_bind, try_except, execute, sql_upsert. rewrite Hk. simpl.
  by rewrite Hfresh.
Qed.

Lemma unique_names_insert_fresh (t : table) (k name : string) :
  unique_names t → t !! k = None → ¬ bound name t →
  unique_names (<[k := Row (Some name) false false]> t).
Proof.
  intros Hu Hfresh Hnb k1 k2 r1 r2 n H1 H2 Hn1 Hn2.
  destruct (decide (k1 = k)) as [->|Hk1], (decide (k2 = k)) as [->|Hk2]; [done|..].
  - rewrite lookup_insert_eq in H1. injection H1 as <-. simpl in Hn1.
    injection Hn1 as <-. rewrite lookup_insert_ne in H2 by done.
    destruct Hnb. by exists k2, r2.
  - rewrite lookup_insert_eq in H2. injection H2 as <-. simpl in Hn2.
    injection Hn2 as <-. rewrite lookup_insert_ne in H1 by done.
    destruct Hnb. by exists k1, r1.
  - rewrite lookup_insert_ne in H1, H2 by done. by eapply Hu.
Qed.

(** X27: a message that starts with [/bind] never removes or rewrites
    a row, whoever sends it and whatever the console client does:
    every row of the table is still there unchanged afterwards, at
    most one row is added, and when no username was bound to two ids
    before, none is afterwards. *)
Theorem bind_never_overwrites (w : World) (config : Config) (data : request) (s : St) :
  String.prefix "/bind" (raw_message data) = true →
  db s ⊆ db (mainHander w config data s).2
  ∧ (size (db (mainHander w config data s).2) ≤ S (size (db s)))%nat
  ∧ (unique_names (db s) → unique_names (db (mainHander w config data s).2)).
Proof.
  intros Hp.
  destruct (dispatch w config data s) as [o s1] eqn:Hd.
  destruct (mainHander_after_dispatch w config data s s1 o Hd) as [-> _].
  pose proof (dispatch_bind_table w config data s Hp) as Htab.
  rewrite Hd in Htab. simpl in Htab.
  destruct Htab as [->|(k & name & Hfresh & Hnb & ->)].
  - split; [done|]. split; [lia|done].
  - split; [by apply insert_subseteq|]. split.
    + by rewrite map_size_insert_None.
    + intros Hu. by apply unique_names_insert_fresh.
Qed.

Lemma bind_never_overwrites_witness :
  db (fresh (<["2002" := Row (Some "Steve") false false]> ∅))
  ⊆ db (mainHander world_ok sample_config (private_message "/bind Alex" 3003)
          (fresh (<["2002" := Row (Some "Steve") false false]> ∅))).2
  ∧ (size (db (mainHander world_ok sample_config (private_message "/bind Alex" 3003)
                 (fresh (<["2002" := Row (Some "Steve") false false]> ∅))).2)
     ≤ S (size (db (fresh (<["2002" := Row (Some "Steve") false false]> ∅)))))%nat
  ∧ (unique_names (db (fresh (<["2002" := Row (Some "Steve") false false]> ∅))) →
     unique_names
       (db (mainHander world_ok sample_config (private_message "/bind Alex" 3003)
              (fresh (<["2002" := Row (Some "Steve") false false]> ∅))).2)).
Proof.
  apply (bind_never_overwrites world_ok sample_config (private_message "/bind Alex" 3003)
           (fresh (<["2002" := Row (Some "Steve") false false]> ∅))).
  reflexivity.
Defined.

(** ** The prober, as it runs *)

(** X28: [getMinecraftServerInfo] makes exactly one round trip and its
    answer is decided by that one: the data of the server when it
    answers, the offline result with the error flag when it fails with
    a timeout or a name-resolution error, and the exception itself
    otherwise; a second attempt is never made, since every path of
    the loop body leaves the function. *)
Theorem prober_single_round_trip (w : World) (addr : string) (s : St) :
  getMinecraftServerInfo w addr s
  = (info_of (probe_result w (trace s) addr),
     {| db := db s; trace := trace s ++ [EvProbe addr] |}).
Proof. apply getMinecraftServerInfo_step. Qed.

(** ** The line of online players *)

Lemma remove_char_app (c : Ascii.ascii) (a b : string) :
  remove_char c (a +:+ b) = remove_char c a +:+ remove_char c b.
Proof.
  induction a as [|x a IH]; [done|].
  change (String x a +:+ b) with (String x (a +:+ b)). simpl.
  destruct (Ascii.eqb c x); [done|]. by rewrite IH.
Qed.

Lemma remove_char_absent (c : Ascii.ascii) (s : string) :
  char_in c s = false → remove_char c s = s.
Proof.
  induction s as [|x s IH]; [done|]. simpl.
  destruct (Ascii.eqb c x); [done|]. simpl. intros H. by rewrite IH.
Qed.

(** The three replacements of [players_text], as one function. *)
Lemma strip_app (a b : string) :
  remove_char "'" (remove_char "]" (remove_char "[" (a +:+ b)))
  = remove_char "'" (remove_char "]" (remove_char "[" a))
    +:+ remove_char "'" (remove_char "]" (remove_char "[" b)).
Proof. by rewrite !remove_char_app. Qed.

Lemma strip_quoted (n : string) :
  char_in "[" n = false → char_in "]" n = false → char_in "'" n = false →
  remove_char "'" (remove_char "]" (remove_char "[" ("'" +:+ n +:+ "'"))) = n.
Proof.
  intros H1 H2 H3. rewrite !strip_app.
  rewrite (remove_char_absent "[" n H1), (remove_char_absent "]" n H2),
    (remove_char_absent "'" n H3).
  change (remove_char "'" (remove_char "]" (remove_char "[" "'"))) with "".
  change ("" +:+ n +:+ "") with (n +:+ ""). apply append_empty_r.
Qed.

Lemma strip_join (w : World) (l : list string) :
  (∀ n, n ∈ l →
     str_repr w n = "'" +:+ n +:+ "'"
     ∧ char_in "[" n = false ∧ char_in "]" n = false ∧ char_in "'" n = false) →
  remove_char "'" (remove_char "]" (remove_char "[" (join ", " (str_repr w <$> l))))
  = join ", " l.
Proof.
  induction l as [|n [|n' l] IH]; intros Hall; [done|..].
  - destruct (Hall n) as (Hr & H1 & H2 & H3); [by left|].
    simpl. rewrite Hr. by apply strip_quoted.
  - destruct (Hall n) as (Hr & H1 & H2 & H3); [by left|].
    change (join ", " (str_repr w <$> n :: n' :: l))
      with (str_repr w n +:+ ", " +:+ join ", " (str_repr w <$> n' :: l)).
    change (join ", " (n :: n' :: l)) with (n +:+ ", " +:+ join ", " (n' :: l)).
    rewrite !strip_app, Hr, (strip_quoted n H1 H2 H3), IH.
    + done.
    + intros m Hm. apply Hall. by right.
Qed.

(** X29: when [repr] of each player name is the name between single
    quotes and no name contains a bracket or a single quote, the
    players shown for an online server are the names separated by a
    comma and a space; for an empty list the block says that nobody
    is online. *)
Theorem players_line_lists_names (w : World) (l : list string) (name : pyval) (st : status) :
  st_players st = l →
  (∀ n, n ∈ l →
     str_repr w n = "'" +:+ n +:+ "'"
     ∧ char_in "[" n = false ∧ char_in "]" n = false ∧ char_in "'" n = false) →
  singleMsg w name (online_info st)
  = nl +:+ "            " +:+ nl +:+
    "服务器名称：" +:+ py_str w name +:+ nl +:+
    "延迟：" +:+ st_latency st +:+ " ms" +:+ nl +:+
    "在线人数：" +:+ pretty (st_online st) +:+ "/" +:+ pretty (st_max st) +:+ nl +:+
    "在线玩家：" +:+ (match l with [] => "无" | _ => join ", " l end) +:+ nl +:+
    "当前状态：在线".
Proof.
  intros Hl Hall. unfold singleMsg. simpl. rewrite Hl.
  destruct l as [|n l]; [done|].
  unfold players_text. rewrite !strip_app, (strip_join w (n :: l) Hall).
  change (remove_char "'" (remove_char "]" (remove_char "[" "["))) with "".
  change (remove_char "'" (remove_char "]" (remove_char "[" "]"))) with "".
  change ("" +:+ join ", " (n :: l) +:+ "") with (join ", " (n :: l) +:+ "").
  by rewrite append_empty_r.
Qed.

Lemma players_line_lists_names_witness :
  singleMsg world_ok (PStr "survival")
    (online_info (Status "1.20.4" 765 ["Steve"; "Alex"] 2 20 "A server" "12.34"))
  = nl +:+ "            " +:+ nl +:+
    "服务器名称：" +:+ py_str world_ok (PStr "survival") +:+ nl +:+
    "延迟：" +:+ st_latency (Status "1.20.4" 765 ["Steve"; "Alex"] 2 20 "A server" "12.34")
    +:+ " ms" +:+ nl +:+
    "在线人数：" +:+ pretty (st_online (Status "1.20.4" 765 ["Steve"; "Alex"] 2 20 "A server" "12.34"))
    +:+ "/" +:+ pretty (st_max (Status "1.20.4" 765 ["Steve"; "Alex"] 2 20 "A server" "12.34"))
    +:+ nl +:+
    "在线玩家：" +:+ (match ["Steve"; "Alex"] with [] => "无" | _ => join ", " ["Steve"; "Alex"] end)
    +:+ nl +:+
    "当前状态：在线".
Proof.
  apply (players_line_lists_names world_ok ["Steve"; "Alex"] (PStr "survival")
           (Status "1.20.4" 765 ["Steve"; "Alex"] 2 20 "A server" "12.34")).
  - reflexivity.
  - intros n Hn. repeat (apply elem_of_cons in Hn as [->|Hn]; [by repeat split|]).
    by apply elem_of_nil in Hn.
Defined.
